(** * Arizona desert plants assistant: retrieval-augmented pipeline

    A shallow embedding of the ingestion module ([data-ingestion/ingestion.py])
    and of the assistant application ([assistant-app/ArizonaPlantVectorStore.py],
    [assistant-app/ArizonaPlantRAG.py], [assistant-app/app.py]), followed by the
    properties established about them.

    Conventions.
    - A Python [str] is a [string]; one [ascii] stands for one character, so
      [String.length] is Python's [len] and [str_take n] is the slice [s[:n]].
    - A Python [int] is a [Z]; a [float] is a [spec_float] (IEEE 754 binary
      value: zero, infinity, nan, or sign, mantissa and exponent).
    - A [dict] read from JSON is a [gmap string value].
    - Code that may raise returns a [result]; code that talks to the embedding
      model, the Qdrant client or the OpenAI client runs in the monad [M],
      which threads the list of calls made so far and stops at the first
      exception.
    - [print] statements and the progress bar are not modelled. *)

From Stdlib Require Import ZArith Lia List Bool.
From Stdlib Require Import Strings.String Strings.Ascii.
From Stdlib Require Import Numbers.DecimalString.
From Stdlib Require Import Floats.SpecFloat.
From stdpp Require Import base option list gmap strings fin_maps.

Set Warnings "-register-all".
Local Open Scope Z_scope.

(* ===================================================================== *)
(** * The fragment of Python the program uses *)
(* ===================================================================== *)

(** ** Values *)

Inductive value : Type :=
| VNone
| VBool (b : bool)
| VInt (n : Z)
| VFloat (x : spec_float)
| VStr (s : string)
| VList (xs : list value)
| VDict (d : gmap string value).

(** ** Exceptions *)

Inductive exn : Type :=
| FileNotFoundError (msg : string)
| ValueError (msg : string)
| JSONDecodeError (msg : string)      (* a subclass of ValueError *)
| TypeError (msg : string)
| ValidationError (model : string)    (* pydantic *)
| HTTPException (status_code : Z) (detail : string)
| UpstreamError (msg : string).       (* raised by an external client *)

(** [isinstance(e, ValueError)]. *)
Definition is_ValueError (e : exn) : bool :=
  match e with
  | ValueError _ | JSONDecodeError _ => true
  | _ => false
  end.

(** [isinstance(e, FileNotFoundError)]. *)
Definition is_FileNotFoundError (e : exn) : bool :=
  match e with
  | FileNotFoundError _ => true
  | _ => false
  end.

Inductive result (A : Type) : Type :=
| Ok (a : A)
| Err (e : exn).
Arguments Ok {A} a.
Arguments Err {A} e.

#[global] Instance result_ret : MRet result := fun _ a => Ok a.
#[global] Instance result_bind : MBind result := fun _ _ k r =>
  match r with
  | Ok a => k a
  | Err e => Err e
  end.

(** [[f(x) for x in xs]] where [f] may raise. *)
Fixpoint rmap {A B : Type} (f : A -> result B) (xs : list A) : result (list B) :=
  match xs with
  | [] => Ok []
  | x :: xs' =>
      match f x with
      | Err e => Err e
      | Ok y =>
          match rmap f xs' with
          | Err e => Err e
          | Ok ys => Ok (y :: ys)
          end
      end
  end.

Definition is_Ok {A : Type} (r : result A) : bool :=
  match r with Ok _ => true | Err _ => false end.

(** ** Strings *)

Definition nl : string := String (ascii_of_nat 10) EmptyString.
Definition dquote : string := String (ascii_of_nat 34) EmptyString.

(** The slice [s[:n]] for [n >= 0]. *)
Fixpoint str_take (n : nat) (s : string) : string :=
  match n, s with
  | O, _ => EmptyString
  | S _, EmptyString => EmptyString
  | S n', String c s' => String c (str_take n' s')
  end.

(** [len(s)]. *)
Definition len (s : string) : Z := Z.of_nat (String.length s).

(** [s * n]: the string repeated. *)
Fixpoint str_repeat (s : string) (n : nat) : string :=
  match n with
  | O => EmptyString
  | S n' => s +:+ str_repeat s n'
  end.

(** [sep.join(parts)]. *)
Definition join (sep : string) (parts : list string) : string :=
  String.concat sep parts.

(** [s] is an initial segment of [t]. *)
Definition is_prefix_of (s t : string) : Prop := exists u, t = s +:+ u.

(** The slice [s[n:]] for [n >= 0]. *)
Fixpoint str_drop (n : nat) (s : string) : string :=
  match n, s with
  | O, _ => s
  | S _, EmptyString => EmptyString
  | S n', String _ s' => str_drop n' s'
  end.

(** [t.endswith(s)]. *)
Definition ends_with (t s : string) : bool :=
  (String.length s <=? String.length t)%nat
  && String.eqb (str_drop (String.length t - String.length s) t) s.

(** Characters that [str.strip()] removes (whitespace among the first 256
    code points). *)
Definition is_space (c : ascii) : bool :=
  let n := nat_of_ascii c in
  ((9 <=? n) && (n <=? 13) || (28 <=? n) && (n <=? 32)
   || (n =? 133) || (n =? 160))%nat.

Fixpoint lstrip (s : string) : string :=
  match s with
  | EmptyString => EmptyString
  | String c s' => if is_space c then lstrip s' else s
  end.

Fixpoint rstrip (s : string) : string :=
  match s with
  | EmptyString => EmptyString
  | String c s' =>
      match rstrip s' with
      | EmptyString => if is_space c then EmptyString else String c EmptyString
      | t => String c t
      end
  end.

(** [s.strip()]. *)
Definition strip (s : string) : string := rstrip (lstrip s).

(** [str(n)] for an [int]. *)
Definition str_of_int (n : Z) : string := NilZero.string_of_int (Z.to_int n).

Definition is_digit (c : ascii) : bool :=
  ((48 <=? nat_of_ascii c) && (nat_of_ascii c <=? 57))%nat.

Fixpoint all_digits (s : string) : bool :=
  match s with
  | EmptyString => true
  | String c s' => is_digit c && all_digits s'
  end.

(** One decimal digit, [0 <= d <= 9]. *)
Definition digit_char (d : Z) : ascii := ascii_of_nat (48 + Z.to_nat d).

(** ** The format specification [:.3f] *)

(** The integer nearest to [n / d], ties to the even one ([0 <= n], [0 < d]). *)
Definition round_half_even (n d : Z) : Z :=
  let q := n / d in
  let r := n mod d in
  if 2 * r <? d then q
  else if d <? 2 * r then q + 1
  else if Z.even q then q else q + 1.

(** [|x| * 1000] rounded to an integer, for [|x| = m * 2^e]. *)
Definition thousandths (m : positive) (e : Z) : Z :=
  if 0 <=? e then Z.pos m * 1000 * 2 ^ e
  else round_half_even (Z.pos m * 1000) (2 ^ (- e)).

(** Sign, integer part, point and three digits of [t / 1000]. *)
Definition fixed3 (neg : bool) (t : Z) : string :=
  (if neg then "-" else EmptyString)
  +:+ str_of_int (t / 1000)
  +:+ "."
  +:+ String (digit_char (t / 100 mod 10))
        (String (digit_char (t / 10 mod 10))
           (String (digit_char (t mod 10)) EmptyString)).

(** [f"{x:.3f}"] for a float [x]: correctly rounded to three decimals; a
    negative zero keeps its sign; infinities and nan have no digits. *)
Definition format_3f (x : spec_float) : string :=
  match x with
  | S754_zero s => fixed3 s 0
  | S754_infinity s => if s then "-inf" else "inf"
  | S754_nan => "nan"
  | S754_finite s m e => fixed3 s (thousandths m e)
  end.

Definition is_finite_float (x : spec_float) : bool :=
  match x with
  | S754_zero _ | S754_finite _ _ _ => true
  | _ => false
  end.

(** A rendering with exactly three decimal places: an optional minus sign,
    at least one digit, a point, three digits. *)
Definition three_decimals (s : string) : Prop :=
  exists (sign ip : string) (d1 d2 d3 : ascii),
    s = sign +:+ ip +:+ "." +:+ String d1 (String d2 (String d3 EmptyString))
    /\ (sign = EmptyString \/ sign = "-")
    /\ ip <> EmptyString
    /\ all_digits ip = true
    /\ is_digit d1 = true /\ is_digit d2 = true /\ is_digit d3 = true.

(** ** Dynamic operations on values *)

(** What the interpreter prints for floats, lists and dicts ([repr]) and for
    an exception ([str(e)]) is left to the runtime. *)
Class Runtime : Type := {
  py_repr : value -> string;
  exc_str : exn -> string
}.

(** [str(v)], which is also how an f-string renders [{v}]. *)
Definition py_str {R : Runtime} (v : value) : string :=
  match v with
  | VNone => "None"
  | VBool true => "True"
  | VBool false => "False"
  | VInt n => str_of_int n
  | VStr s => s
  | VFloat _ | VList _ | VDict _ => py_repr v
  end.

Definition type_name (v : value) : string :=
  match v with
  | VNone => "NoneType"
  | VBool _ => "bool"
  | VInt _ => "int"
  | VFloat _ => "float"
  | VStr _ => "str"
  | VList _ => "list"
  | VDict _ => "dict"
  end.

(** [len(v)]. *)
Definition py_len (v : value) : result Z :=
  match v with
  | VStr s => Ok (len s)
  | VList xs => Ok (Z.of_nat (length xs))
  | VDict d => Ok (Z.of_nat (size d))
  | _ => Err (TypeError ("object of type '" +:+ type_name v +:+ "' has no len()"))
  end.

(** [v[:n]] for [n >= 0].  A dict rejects a slice as a key (with a TypeError
    up to Python 3.11). *)
Definition py_slice_to (n : nat) (v : value) : result value :=
  match v with
  | VStr s => Ok (VStr (str_take n s))
  | VList xs => Ok (VList (take n xs))
  | VDict _ => Err (TypeError "unhashable type: 'slice'")
  | _ => Err (TypeError ("'" +:+ type_name v +:+ "' object is not subscriptable"))
  end.

(** [v + t] for a [str] literal [t]. *)
Definition py_add_str (v : value) (t : string) : result value :=
  match v with
  | VStr s => Ok (VStr (s +:+ t))
  | VList _ =>
      Err (TypeError ("can only concatenate list (not " +:+ dquote +:+ "str"
                      +:+ dquote +:+ ") to list"))
  | _ =>
      Err (TypeError ("unsupported operand type(s) for +: '" +:+ type_name v
                      +:+ "' and 'str'"))
  end.

(** [d.get(key)] and [d.get(key, dflt)]. *)
Definition dict_get (d : gmap string value) (key : string) : value :=
  default VNone (d !! key).
Definition dict_get_or (d : gmap string value) (key : string) (dflt : value) : value :=
  default dflt (d !! key).

(** ** Sequences *)

(** [range(start, stop, step)]. *)
Definition py_range (start stop step : Z) : result (list Z) :=
  if step =? 0 then Err (ValueError "range() arg 3 must not be zero")
  else
    let count :=
      if 0 <? step then (stop - start + step - 1) / step
      else (start - stop - step - 1) / (- step) in
    Ok (map (fun k : nat => start + Z.of_nat k * step) (seq 0 (Z.to_nat count))).

(** [xs[i:j]] for [0 <= i <= j]. *)
Definition py_slice {A : Type} (xs : list A) (i j : Z) : list A :=
  take (Z.to_nat (j - i)) (drop (Z.to_nat i) xs).

(** [enumerate(xs, start)]. *)
Fixpoint enumerate {A : Type} (start : Z) (xs : list A) : list (Z * A) :=
  match xs with
  | [] => []
  | x :: xs' => (start, x) :: enumerate (start + 1) xs'
  end.

(** [zip(xs, ys, zs)]: stops at the shortest. *)
Fixpoint zip3 {A B C : Type} (xs : list A) (ys : list B) (zs : list C)
  : list (A * B * C) :=
  match xs, ys, zs with
  | x :: xs', y :: ys', z :: zs' => (x, y, z) :: zip3 xs' ys' zs'
  | _, _, _ => []
  end.

(** The lines a text file yields when iterated: each keeps its newline. *)
Fixpoint file_lines (s : string) : list string :=
  match s with
  | EmptyString => []
  | String c s' =>
      if Ascii.eqb c (ascii_of_nat 10) then String c EmptyString :: file_lines s'
      else
        match file_lines s' with
        | [] => [String c EmptyString]
        | l :: ls => String c l :: ls
        end
  end.

(* ===================================================================== *)
(** * External collaborators *)
(* ===================================================================== *)

Definition vector : Type := list spec_float.

(** A point as the index returns it. *)
Record ScoredPoint : Type := {
  sp_id : Z;
  sp_score : spec_float;
  sp_payload : gmap string value
}.

(** A point as the ingestion uploads it. *)
Record PointStruct : Type := {
  ps_id : Z;
  ps_vector : vector;
  ps_payload : gmap string value
}.

(** [SentenceTransformer]: [encode] on one text gives its vector; on a list
    of texts it gives one row per text, in order. *)
Class EmbeddingModel : Type := {
  model_encode : string -> vector;
  model_encode_batch : list string -> list vector;
  model_encode_batch_rows :
    forall texts, model_encode_batch texts = map model_encode texts
}.

(** [QdrantClient], for the one collection the store is bound to. *)
Class QdrantClient : Type := {
  client_query_points : vector -> Z -> result (list ScoredPoint);
  client_search : vector -> Z -> result (list ScoredPoint);
  client_upsert : list PointStruct -> result unit
}.

(** [OpenAI]: [chat.completions.create] with model [gpt-4o-mini],
    temperature 0.7 and 500 tokens at most; the content of the first choice. *)
Class OpenAIClient : Type := {
  chat_completions_create : string -> result string
}.

(** The file system ([Path.exists], [Path.suffix], [open] in text mode) and
    the [json] module. *)
Class FileSystem : Type := {
  path_exists : string -> bool;
  path_suffix : string -> string;
  open_read : string -> result string;
  json_loads : string -> result value
}.

(** ** Calls made to the collaborators *)

Inductive event : Type :=
| EncodeOne (text : string)
| EncodeBatch (texts : list string)
| QueryPoints (query : vector) (limit : Z)
| ClientSearch (query_vector : vector) (limit : Z)
| Upsert (points : list PointStruct)
| ChatCompletion (prompt : string).

(** A computation: from the calls made so far to a value or an exception,
    and the calls made by then. *)
Definition M (A : Type) : Type := list event -> result A * list event.

#[global] Instance M_ret : MRet M := fun _ a t => (Ok a, t).
#[global] Instance M_bind : MBind M := fun _ _ k m t =>
  match m t with
  | (Ok a, t') => k a t'
  | (Err e, t') => (Err e, t')
  end.

(** One call to a collaborator: recorded, then answered. *)
Definition call {A : Type} (ev : event) (answer : result A) : M A :=
  fun t => (answer, t ++ [ev]).

Definition raise {A : Type} (e : exn) : M A := fun t => (Err e, t).

Definition lift {A : Type} (r : result A) : M A := fun t => (r, t).

(** [try: m except Exception as e: h e]. *)
Definition try_except {A : Type} (m : M A) (h : exn -> M A) : M A :=
  fun t =>
    match m t with
    | (Ok a, t') => (Ok a, t')
    | (Err e, t') => h e t'
    end.

(** [for x in xs: s = body(s, x)]. *)
Fixpoint for_each {A S : Type} (xs : list A) (body : S -> A -> M S) (s : S) : M S :=
  match xs with
  | [] => mret s
  | x :: xs' => s' ← body s x; for_each xs' body s'
  end.

(** The dict a search returns for one match. *)
Record SearchHit : Type := {
  hit_id : value;
  hit_score : spec_float;
  hit_title : value;
  hit_content : value;
  hit_type : value;
  hit_source : value;
  hit_metadata : value
}.

(** [hit[key]], for the keys a search result has. *)
Definition hit_get (key : string) (hit : SearchHit) : option value :=
  if String.eqb key "id" then Some (hit_id hit)
  else if String.eqb key "title" then Some (hit_title hit)
  else if String.eqb key "content" then Some (hit_content hit)
  else if String.eqb key "type" then Some (hit_type hit)
  else if String.eqb key "source" then Some (hit_source hit)
  else if String.eqb key "metadata" then Some (hit_metadata hit)
  else None.

(* ===================================================================== *)
(** * data-ingestion/ingestion.py *)
(* ===================================================================== *)

Module ingestion.

(** One entry of [documents_with_embeddings]. *)
Record DocWithEmbedding : Type := {
  dwe_document : gmap string value;
  dwe_embedding : vector;
  dwe_text : string
}.

Section Store.
Context {R : Runtime} {E : EmbeddingModel} {Q : QdrantClient} {F : FileSystem}.

(** [load_dataset]: the parsed content of the dataset file. *)
Definition load_dataset (dataset_path : string) : result value :=
  if negb (path_exists dataset_path) then
    Err (FileNotFoundError ("Dataset not found: " +:+ dataset_path))
  else
    documents ←
      (if String.eqb (path_suffix dataset_path) ".json" then
         f ← open_read dataset_path;
         json_loads f
       else if String.eqb (path_suffix dataset_path) ".jsonl" then
         f ← open_read dataset_path;
         lines ← rmap json_loads (file_lines f);
         Ok (VList lines)
       else
         Err (ValueError ("Unsupported file format: "
                          +:+ path_suffix dataset_path)));
    _ ← py_len documents;
    Ok documents.

(** The f-string of [prepare_text_for_embedding]: title, a blank line,
    content. *)
Definition title_and_content (document : gmap string value) : string :=
  let title := dict_get_or document "title" (VStr EmptyString) in
  let content := dict_get_or document "content" (VStr EmptyString) in
  py_str title +:+ nl +:+ nl +:+ py_str content.

(** [prepare_text_for_embedding]. *)
Definition prepare_text_for_embedding (document : gmap string value) : string :=
  let text := title_and_content document in
  let max_chars := 5000 in
  if max_chars <? len text then str_take (Z.to_nat max_chars) text else text.

(** [create_embeddings]. *)
Definition create_embeddings (documents : list (gmap string value)) (batch_size : Z)
  : M (list DocWithEmbedding) :=
  let texts := map prepare_text_for_embedding documents in
  starts ← lift (py_range 0 (Z.of_nat (length texts)) batch_size);
  all_embeddings ←
    for_each starts
      (fun (all_embeddings : list vector) (i : Z) =>
         let batch_texts := py_slice texts i (i + batch_size) in
         batch_embeddings ←
           call (EncodeBatch batch_texts) (Ok (model_encode_batch batch_texts));
         mret (all_embeddings ++ batch_embeddings))
      [];
  mret (map (fun '(doc, embedding, text) =>
               {| dwe_document := doc; dwe_embedding := embedding; dwe_text := text |})
            (zip3 documents all_embeddings texts)).

(** The payload stored with a point. *)
Definition make_payload (doc : gmap string value) : gmap string value :=
  list_to_map
    [ ("id", dict_get doc "id");
      ("type", dict_get doc "type");
      ("source", dict_get doc "source");
      ("title", dict_get doc "title");
      ("content", dict_get doc "content");
      ("metadata", dict_get_or doc "metadata" (VDict ∅)) ].

(** The list [points] that [upload_to_qdrant] builds. *)
Definition make_points (documents_with_embeddings : list DocWithEmbedding)
  : list PointStruct :=
  fold_left
    (fun (points : list PointStruct) '(idx, item) =>
       let doc := dwe_document item in
       let embedding := dwe_embedding item in
       points ++ [ {| ps_id := idx; ps_vector := embedding;
                      ps_payload := make_payload doc |} ])
    (enumerate 0 documents_with_embeddings) [].

(** [upload_to_qdrant]. *)
Definition upload_to_qdrant (documents_with_embeddings : list DocWithEmbedding)
  : M unit :=
  let points := make_points documents_with_embeddings in
  let batch_size := 100 in
  starts ← lift (py_range 0 (Z.of_nat (length points)) batch_size);
  for_each starts
    (fun (_ : unit) (i : Z) =>
       let batch := py_slice points i (i + batch_size) in
       call (Upsert batch) (client_upsert batch))
    tt.

(** One entry of [formatted_results]. *)
Definition format_result (point : ScoredPoint) : result SearchHit :=
  let payload := sp_payload point in
  head ← py_slice_to 500 (dict_get payload "content");
  content ← py_add_str head "...";
  Ok {| hit_score := sp_score point;
        hit_id := dict_get payload "id";
        hit_title := dict_get payload "title";
        hit_type := dict_get payload "type";
        hit_source := dict_get payload "source";
        hit_content := content;
        hit_metadata := dict_get payload "metadata" |}.

(** [search]. *)
Definition search (query : string) (limit : Z) : M (list SearchHit) :=
  query_embedding ← call (EncodeOne query) (Ok (model_encode query));
  results ← call (ClientSearch query_embedding limit)
                 (client_search query_embedding limit);
  for_each results
    (fun (formatted_results : list SearchHit) (point : ScoredPoint) =>
       entry ← lift (format_result point);
       mret (formatted_results ++ [entry]))
    [].

End Store.
End ingestion.

(* ===================================================================== *)
(** * assistant-app/ArizonaPlantVectorStore.py *)
(* ===================================================================== *)

Module ArizonaPlantVectorStore.
Section Store.
Context {E : EmbeddingModel} {Q : QdrantClient}.

(** One entry of [results]. *)
Definition format_point (point : ScoredPoint) : SearchHit :=
  let payload := sp_payload point in
  {| hit_id := dict_get_or payload "id" (VStr "N/A");
     hit_score := sp_score point;
     hit_title := dict_get_or payload "title" (VStr "Untitled");
     hit_content := dict_get_or payload "content" (VStr EmptyString);
     hit_type := dict_get_or payload "type" (VStr EmptyString);
     hit_source := dict_get_or payload "source" (VStr EmptyString);
     hit_metadata := dict_get_or payload "metadata" (VDict ∅) |}.

(** [search]. *)
Definition search (query : string) (limit : Z) : M (list SearchHit) :=
  query_embedding ← call (EncodeOne query) (Ok (model_encode query));
  search_results ← call (QueryPoints query_embedding limit)
                        (client_query_points query_embedding limit);
  for_each search_results
    (fun (results : list SearchHit) (point : ScoredPoint) =>
       mret (results ++ [format_point point]))
    [].

End Store.
End ArizonaPlantVectorStore.

(* ===================================================================== *)
(** * assistant-app/ArizonaPlantRAG.py *)
(* ===================================================================== *)

Module ArizonaPlantRAG.

(** The fixed text of the prompt, as the f-string in [build_prompt] lays it
    out: what precedes the context, what stands between the context and the
    question, and what follows the question. *)
Definition prompt_intro : string :=
  "You are an expert on Arizona desert plants. Answer the user's question based on the provided context from authoritative sources."
  +:+ nl +:+ nl
  +:+ "        Context from relevant documents:" +:+ nl
  +:+ "        ".

Definition prompt_question : string :=
  nl +:+ nl +:+ "        User Question: ".

Definition prompt_instructions : string :=
  nl +:+ nl
  +:+ "        Instructions:" +:+ nl
  +:+ "        - Provide a clear, detailed answer based on the context above" +:+ nl
  +:+ "        - If the context contains scientific names, include them" +:+ nl
  +:+ "        - If mentioning care instructions, be specific about Arizona conditions" +:+ nl
  +:+ "        - If the context doesn't fully answer the question, say so" +:+ nl
  +:+ "        - Cite which document(s) you're drawing from (e.g., "
  +:+ dquote +:+ "According to Document 1..." +:+ dquote +:+ ")" +:+ nl
  +:+ nl
  +:+ "        Answer:".

Section RAG.
Context {R : Runtime} {E : EmbeddingModel} {Q : QdrantClient} {O : OpenAIClient}.

(** The list [context_parts] after the loop of [build_prompt]. *)
Definition context_parts (search_results : list SearchHit) : list string :=
  fold_left
    (fun (parts : list string) '(i, r) =>
       parts
       ++ [ "Document " +:+ str_of_int i +:+ " (Score: "
            +:+ format_3f (hit_score r) +:+ "):" ]
       ++ [ "Title: " +:+ py_str (hit_title r) ]
       ++ [ "Source: " +:+ py_str (hit_source r) ]
       ++ [ "Content: " +:+ py_str (hit_content r) ]
       ++ [ EmptyString ])
    (enumerate 1 search_results) [].

(** [build_prompt]. *)
Definition build_prompt (query : string) (search_results : list SearchHit) : string :=
  let context := join nl (context_parts search_results) in
  strip (prompt_intro +:+ context +:+ prompt_question +:+ query
         +:+ prompt_instructions).

(** [llm]. *)
Definition llm (prompt : string) : M string :=
  call (ChatCompletion prompt) (chat_completions_create prompt).

(** [rag]. *)
Definition rag (query : string) : M string :=
  search_results ← ArizonaPlantVectorStore.search query 5;
  let prompt := build_prompt query search_results in
  answer ← llm prompt;
  mret answer.

End RAG.
End ArizonaPlantRAG.

(* ===================================================================== *)
(** * assistant-app/app.py *)
(* ===================================================================== *)

Module app.

(** The request model: [question] of at least 3 characters, [top_k] between
    1 and 10. *)
Record QueryRequest : Type := {
  req_question : string;
  req_top_k : Z
}.

(** The response models. *)
Record SearchResult : Type := {
  res_id : string;
  res_title : string;
  res_score : spec_float;
  res_content : string;
  res_type : string;
  res_source : string
}.

Record QueryResponse : Type := {
  resp_question : string;
  resp_answer : string;
  resp_retrieved_documents : list SearchResult;
  resp_model : string
}.

(** Validation of the fields of [QueryRequest]. *)
Definition QueryRequest_validate (question : string) (top_k : Z) : result QueryRequest :=
  if len question <? 3 then Err (ValidationError "QueryRequest")
  else if top_k <? 1 then Err (ValidationError "QueryRequest")
  else if 10 <? top_k then Err (ValidationError "QueryRequest")
  else Ok {| req_question := question; req_top_k := top_k |}.

(** A field declared [str] accepts a string only. *)
Definition str_field (model : string) (v : value) : result string :=
  match v with
  | VStr s => Ok s
  | _ => Err (ValidationError model)
  end.

(** The constructor call [SearchResult(id=..., title=..., ...)]. *)
Definition SearchResult_validate (id title : value) (score : spec_float)
    (content type source : value) : result SearchResult :=
  id' ← str_field "SearchResult" id;
  title' ← str_field "SearchResult" title;
  content' ← str_field "SearchResult" content;
  type' ← str_field "SearchResult" type;
  source' ← str_field "SearchResult" source;
  Ok {| res_id := id'; res_title := title'; res_score := score;
        res_content := content'; res_type := type'; res_source := source' |}.

(** One entry of [search_results] in [query_rag]. *)
Definition to_search_result (doc : SearchHit) : result SearchResult :=
  n ← py_len (hit_content doc);
  content ←
    (if 500 <? n then
       head ← py_slice_to 500 (hit_content doc);
       py_add_str head "..."
     else Ok (hit_content doc));
  SearchResult_validate (hit_id doc) (hit_title doc) (hit_score doc) content
                        (hit_type doc) (hit_source doc).

Section Endpoints.
Context {R : Runtime} {E : EmbeddingModel} {Q : QdrantClient} {O : OpenAIClient}.

(** [query_rag]; [ready] tells whether the startup event has set the globals
    [rag] and [vector_store].  The timestamp of the response is left out. *)
Definition query_rag (ready : bool) (request : QueryRequest) : M QueryResponse :=
  try_except
    (_ ← (if negb ready
          then raise (HTTPException 503 "RAG system not initialized")
          else mret tt);
     answer ← ArizonaPlantRAG.rag (req_question request);
     retrieved_docs ←
       ArizonaPlantVectorStore.search (req_question request) (req_top_k request);
     search_results ← lift (rmap to_search_result retrieved_docs);
     mret {| resp_question := req_question request;
             resp_answer := answer;
             resp_retrieved_documents := search_results;
             resp_model := "gpt-4o-mini" |})
    (fun e =>
       raise (HTTPException 500 ("Error processing query: " +:+ exc_str e))).

End Endpoints.
End app.

(* ===================================================================== *)
(** * Expected outcomes, used to state the properties *)
(* ===================================================================== *)

Section Expected.
Context {R : Runtime} {E : EmbeddingModel}.

(** A document with the embedding of its prepared text. *)
Definition embedded (doc : gmap string value) : ingestion.DocWithEmbedding :=
  {| ingestion.dwe_document := doc;
     ingestion.dwe_embedding := model_encode (ingestion.prepare_text_for_embedding doc);
     ingestion.dwe_text := ingestion.prepare_text_for_embedding doc |}.

(** The point built for the document at position [idx]. *)
Definition point_of (idx : nat) (item : ingestion.DocWithEmbedding) : PointStruct :=
  {| ps_id := Z.of_nat idx;
     ps_vector := ingestion.dwe_embedding item;
     ps_payload := ingestion.make_payload (ingestion.dwe_document item) |}.

(** The labeled block of one search result in the prompt: rank and score,
    title, source, content, each on a line of its own. *)
Definition document_block (rank : Z) (hit : SearchHit) : string :=
  "Document " +:+ str_of_int rank +:+ " (Score: "
  +:+ format_3f (hit_score hit) +:+ "):" +:+ nl
  +:+ "Title: " +:+ py_str (hit_title hit) +:+ nl
  +:+ "Source: " +:+ py_str (hit_source hit) +:+ nl
  +:+ "Content: " +:+ py_str (hit_content hit) +:+ nl.

(** A search result carries the score of the stored point and, for every
    key of the payload among [keys], the stored value. *)
Definition as_stored (keys : list string) (point : ScoredPoint) (hit : SearchHit) : Prop :=
  hit_score hit = sp_score point
  /\ forall key v, In key keys -> sp_payload point !! key = Some v ->
                  hit_get key hit = Some v.

End Expected.

(* ===================================================================== *)
(** * A small concrete deployment, used to run the definitions *)
(* ===================================================================== *)

Module Fixture.

Definition runtime : Runtime :=
  {| py_repr := fun _ => "<object>";
     exc_str := fun e =>
       match e with
       | FileNotFoundError m | ValueError m | JSONDecodeError m
       | TypeError m | ValidationError m | UpstreamError m => m
       | HTTPException _ m => m
       end |}.

(** A one-dimensional embedding: the length of the text. *)
Definition model : EmbeddingModel :=
  {| model_encode := fun s => [S754_finite false (Pos.of_succ_nat (String.length s)) 0];
     model_encode_batch :=
       map (fun s => [S754_finite false (Pos.of_succ_nat (String.length s)) 0]);
     model_encode_batch_rows := fun _ => eq_refl |}.

Definition plant (id title content : string) : gmap string value :=
  list_to_map
    [ ("id", VStr id); ("type", VStr "plant"); ("source", VStr "Desert Museum");
      ("title", VStr title); ("content", VStr content);
      ("metadata", VDict ∅) ].

Definition scored (n : Z) (m : positive) (e : Z) (payload : gmap string value)
  : ScoredPoint :=
  {| sp_id := n; sp_score := S754_finite false m e; sp_payload := payload |}.

(** Six stored points, ranked, with scores 0.875, 0.8125, 0.75, 0.625, 0.5
    and 0.375. *)
Definition ranked : list ScoredPoint :=
  [ scored 0 7 (-3) (plant "p1" "Saguaro" "Carnegiea gigantea tolerates extreme heat.");
    scored 1 13 (-4) (plant "p2" "Ocotillo" "Fouquieria splendens leafs out after rain.");
    scored 2 3 (-2) (plant "p3" "Palo Verde" "Parkinsonia florida is the state tree.");
    scored 3 5 (-3) (plant "p4" "Cholla" "Cylindropuntia needs minimal water.");
    scored 4 1 (-1) (plant "p5" "Agave" "Agave parryi survives frost.");
    scored 5 3 (-3) (plant "p6" "Creosote" "Larrea tridentata smells of rain.") ].

(** The index answers with the [limit] best of the ranked points. *)
Definition qdrant (points : list ScoredPoint) : QdrantClient :=
  {| client_query_points := fun _ limit => Ok (take (Z.to_nat limit) points);
     client_search := fun _ limit => Ok (take (Z.to_nat limit) points);
     client_upsert := fun _ => Ok tt |}.

Definition openai : OpenAIClient :=
  {| chat_completions_create := fun _ =>
       Ok "According to Document 1, the saguaro tolerates extreme heat." |}.

(** The part of a file name from its last dot on. *)
Fixpoint last_dot_suffix (s : string) : string :=
  match s with
  | EmptyString => EmptyString
  | String c s' =>
      match last_dot_suffix s' with
      | EmptyString => if Ascii.eqb c "."%char then s else EmptyString
      | t => t
      end
  end.

(** Three files; the parser knows the empty array and the empty object. *)
Definition files : FileSystem :=
  {| path_exists := fun p =>
       String.eqb p "plants.json" || String.eqb p "plants.jsonl"
       || String.eqb p "plants.csv" || String.eqb p "broken.json";
     path_suffix := last_dot_suffix;
     open_read := fun p =>
       if String.eqb p "plants.json" then Ok "[]"
       else if String.eqb p "plants.jsonl" then Ok ("{}" +:+ nl +:+ "{}" +:+ nl)
       else if String.eqb p "broken.json" then Ok "[{"
       else Ok "id,title";
     json_loads := fun s =>
       if String.eqb s "[]" then Ok (VList [])
       else if String.eqb s ("{}" +:+ nl) then Ok (VDict ∅)
       else Err (JSONDecodeError "Expecting value") |}.

(** A document whose content has 6000 characters. *)
Definition long_document : gmap string value :=
  list_to_map [ ("title", VStr "Saguaro"); ("content", VStr (str_repeat "x" (Z.to_nat 6000))) ].

(** A stored point without a [content] field. *)
Definition no_content : ScoredPoint :=
  scored 0 7 (-3) (list_to_map [ ("id", VStr "p1"); ("title", VStr "Saguaro") ]).

End Fixture.

(* ===================================================================== *)
(** * The rest of the ingestion run and of the application *)
(* ===================================================================== *)

(** What [get_collection] reports. *)
Record CollectionInfo : Type := {
  points_count : option Z;
  vectors_size : Z
}.

(** The collection-level operations of the Qdrant client, for the one
    collection the store is bound to, and the dimension the embedding model
    reports. *)
Class CollectionAdmin : Type := {
  embedding_dim : Z;
  client_delete_collection : result unit;
  client_create_collection : Z -> result unit;
  client_get_collection : result CollectionInfo
}.

(** The exception Python raises when an object of the type named first has
    no attribute of the name given second. *)
Class Attributes : Type := {
  attribute_error : string -> string -> exn
}.

(** [try: body except Exception as e: handler e], without calls. *)
Definition rtry {A : Type} (body : result A) (handler : exn -> result A) : result A :=
  match body with
  | Ok a => Ok a
  | Err e => handler e
  end.

(** One step of an ingestion run: a call of the kinds above, or a call on
    the collection. *)
Inductive step : Type :=
| Call (ev : event)
| DeleteCollection
| CreateCollection (size : Z)
| GetCollection.

(** A computation of an ingestion run, over the steps made so far. *)
Definition Run (A : Type) : Type := list step -> result A * list step.

#[global] Instance Run_ret : MRet Run := fun _ a t => (Ok a, t).
#[global] Instance Run_bind : MBind Run := fun _ _ k m t =>
  match m t with
  | (Ok a, t') => k a t'
  | (Err e, t') => (Err e, t')
  end.

(** One call on the collection: recorded, then answered. *)
Definition admin {A : Type} (s : step) (answer : result A) : Run A :=
  fun t => (answer, t ++ [s]).

Definition run_lift {A : Type} (r : result A) : Run A := fun t => (r, t).

(** A computation of [M] as part of a run: the calls it makes are added to
    the steps. *)
Definition embed {A : Type} (m : M A) : Run A :=
  fun t => let '(r, evs) := m [] in (r, t ++ map Call evs).

(** [try: m except: h]. *)
Definition run_try {A : Type} (m : Run A) (h : exn -> Run A) : Run A :=
  fun t =>
    match m t with
    | (Ok a, t') => (Ok a, t')
    | (Err e, t') => h e t'
    end.

Module ingestion_run.
Section Store.
Context {R : Runtime} {E : EmbeddingModel} {Q : QdrantClient} {F : FileSystem}
        {C : CollectionAdmin} {P : Attributes}.

(** [create_collection]: the distance is always cosine. *)
Definition create_collection : Run unit :=
  _ ← run_try (admin DeleteCollection client_delete_collection)
              (fun _ => mret tt);
  admin (CreateCollection embedding_dim) (client_create_collection embedding_dim).

(** The documents that [for doc in documents] yields in
    [create_embeddings], each of which must answer [doc.get]: the elements
    of a list, the characters of a string, the keys of a dict. *)
Definition documents_of (documents : value) : result (list (gmap string value)) :=
  match documents with
  | VList xs =>
      rmap (fun doc =>
              match doc with
              | VDict d => Ok d
              | _ => Err (attribute_error (type_name doc) "get")
              end) xs
  | VStr s =>
      if String.eqb s EmptyString then Ok []
      else Err (attribute_error "str" "get")
  | VDict d =>
      if (size d =? 0)%nat then Ok []
      else Err (attribute_error "str" "get")
  | _ => Err (TypeError ("'" +:+ type_name documents +:+ "' object is not iterable"))
  end.

(** [build_index]; [create_embeddings] runs with its default batch size. *)
Definition build_index (dataset_path : string) : Run unit :=
  documents ← run_lift (ingestion.load_dataset dataset_path);
  _ ← create_collection;
  docs ← run_lift (documents_of documents);
  documents_with_embeddings ← embed (ingestion.create_embeddings docs 32);
  _ ← embed (ingestion.upload_to_qdrant documents_with_embeddings);
  collection_info ← admin GetCollection client_get_collection;
  mret tt.

End Store.
End ingestion_run.

Module app_endpoints.

(** The body of the answer of [search_documents]. *)
Record SearchResponse : Type := {
  sr_query : string;
  sr_results : list app.SearchResult;
  sr_count : Z
}.

Record HealthResponse : Type := {
  hr_status : string;
  hr_qdrant_connected : bool;
  hr_collection_exists : bool;
  hr_document_count : option Z
}.

Section Endpoints.
Context {R : Runtime} {E : EmbeddingModel} {Q : QdrantClient} {C : CollectionAdmin}.

(** [search_documents]; [ready] tells whether the startup event has set the
    global [vector_store].  The timestamp is left out. *)
Definition search_documents (ready : bool) (request : app.QueryRequest)
  : M SearchResponse :=
  try_except
    (_ ← (if negb ready
          then raise (HTTPException 503 "Vector store not initialized")
          else mret tt);
     results ←
       ArizonaPlantVectorStore.search (app.req_question request)
                                      (app.req_top_k request);
     search_results ← lift (rmap app.to_search_result results);
     mret {| sr_query := app.req_question request;
             sr_results := search_results;
             sr_count := Z.of_nat (length search_results) |})
    (fun e =>
       raise (HTTPException 500 ("Error searching documents: " +:+ exc_str e))).

(** [health_check], once the startup event has set [vector_store].  The
    timestamp is left out. *)
Definition health_check : result HealthResponse :=
  rtry
    (collection_info ← client_get_collection;
     Ok {| hr_status := "healthy";
           hr_qdrant_connected := true;
           hr_collection_exists := true;
           hr_document_count := points_count collection_info |})
    (fun _ =>
       Ok {| hr_status := "unhealthy";
             hr_qdrant_connected := false;
             hr_collection_exists := false;
             hr_document_count := None |}).

End Endpoints.
End app_endpoints.

(** More of the concrete deployment. *)
Module Fixture2.

(** A collection of six points of dimension 1; [reachable] tells whether
    the index answers. *)
Definition admin_of (reachable : bool) : CollectionAdmin :=
  {| embedding_dim := 1;
     client_delete_collection :=
       if reachable then Ok tt else Err (UpstreamError "connection refused");
     client_create_collection := fun _ =>
       if reachable then Ok tt else Err (UpstreamError "connection refused");
     client_get_collection :=
       if reachable then Ok {| points_count := Some 6; vectors_size := 1 |}
       else Err (UpstreamError "connection refused") |}.

Definition attributes : Attributes :=
  {| attribute_error := fun type name =>
       UpstreamError ("'" +:+ type +:+ "' object has no attribute '" +:+ name +:+ "'") |}.

(** An index that rejects every upsert. *)
Definition read_only (points : list ScoredPoint) : QdrantClient :=
  {| client_query_points := fun _ limit => Ok (take (Z.to_nat limit) points);
     client_search := fun _ limit => Ok (take (Z.to_nat limit) points);
     client_upsert := fun _ => Err (UpstreamError "read-only collection") |}.

(** An index that cannot be reached. *)
Definition unreachable : QdrantClient :=
  {| client_query_points := fun _ _ => Err (UpstreamError "connection refused");
     client_search := fun _ _ => Err (UpstreamError "connection refused");
     client_upsert := fun _ => Err (UpstreamError "connection refused") |}.

(** A language model that cannot be reached. *)
Definition no_openai : OpenAIClient :=
  {| chat_completions_create := fun _ => Err (UpstreamError "rate limit") |}.

(** A document without a title. *)
Definition untitled : gmap string value :=
  list_to_map [ ("id", VStr "p7"); ("content", VStr "Opuntia bears edible fruit.") ].

End Fixture2.

(* ===================================================================== *)
(** * Facts about the Python fragment *)
(* ===================================================================== *)

Section StringFacts.
Local Open Scope nat_scope.

Lemma append_cons (c : ascii) (s t : string) :
  String c s +:+ t = String c (s +:+ t).
Proof. reflexivity. Qed.

Lemma append_empty_l (t : string) : EmptyString +:+ t = t.
Proof. reflexivity. Qed.

Lemma append_empty_r (s : string) : s +:+ EmptyString = s.
Proof.
  induction s as [|c s IH]; [reflexivity|].
  rewrite append_cons, IH. reflexivity.
Qed.

Lemma append_assoc (s t u : string) : (s +:+ t) +:+ u = s +:+ (t +:+ u).
Proof.
  induction s as [|c s IH]; [reflexivity|].
  rewrite !append_cons, IH. reflexivity.
Qed.

Lemma length_append (s t : string) :
  String.length (s +:+ t) = String.length s + String.length t.
Proof.
  induction s as [|c s IH]; [reflexivity|].
  rewrite append_cons. simpl. rewrite IH. reflexivity.
Qed.

Lemma length_str_take (n : nat) (s : string) :
  String.length (str_take n s) = Nat.min n (String.length s).
Proof.
  revert s. induction n as [|n IH]; intros [|c s]; simpl; try reflexivity.
  rewrite IH. reflexivity.
Qed.

Lemma str_take_all (n : nat) (s : string) :
  String.length s <= n -> str_take n s = s.
Proof.
  revert s. induction n as [|n IH]; intros [|c s]; simpl; intros Hle;
    try reflexivity; try lia.
  rewrite IH by lia. reflexivity.
Qed.

Lemma str_take_prefix (n : nat) (s : string) : is_prefix_of (str_take n s) s.
Proof.
  revert s. induction n as [|n IH]; intros s.
  - exists s. reflexivity.
  - destruct s as [|c s]; [exists EmptyString; reflexivity|].
    destruct (IH s) as [u Hu]. exists u. simpl.
    rewrite append_cons. congruence.
Qed.

Lemma append_not_empty_r (s : string) (c : ascii) (t : string) :
  s +:+ String c t <> EmptyString.
Proof. destruct s; discriminate. Qed.

Lemma lstrip_keeps (c : ascii) (s : string) :
  is_space c = false -> lstrip (String c s) = String c s.
Proof. intros Hc. simpl. rewrite Hc. reflexivity. Qed.

Lemma rstrip_keeps (s : string) (c : ascii) :
  is_space c = false -> rstrip (s +:+ String c EmptyString) = s +:+ String c EmptyString.
Proof.
  intros Hc. induction s as [|a s IH].
  - rewrite append_empty_l. simpl. rewrite Hc. reflexivity.
  - rewrite append_cons. simpl. rewrite IH.
    destruct (s +:+ String c EmptyString) eqn:E; [|reflexivity].
    exfalso. exact (append_not_empty_r _ _ _ E).
Qed.

(** [strip] leaves a string alone when neither end is whitespace. *)
Lemma strip_keeps (a : ascii) (s : string) (c : ascii) :
  is_space a = false -> is_space c = false ->
  strip (String a (s +:+ String c EmptyString)) = String a (s +:+ String c EmptyString).
Proof.
  intros Ha Hc. unfold strip. rewrite lstrip_keeps by exact Ha.
  rewrite <- append_cons. apply rstrip_keeps. exact Hc.
Qed.

Lemma join_cons (sep x : string) (xs : list string) :
  xs <> [] -> join sep (x :: xs) = x +:+ sep +:+ join sep xs.
Proof. destruct xs; [congruence|reflexivity]. Qed.

End StringFacts.

Section DecimalFacts.

Lemma all_digits_string_of_uint (d : Decimal.uint) :
  all_digits (NilEmpty.string_of_uint d) = true.
Proof. induction d; simpl; auto. Qed.

Lemma string_of_uint_not_empty (d : Decimal.uint) :
  NilZero.string_of_uint d <> EmptyString.
Proof. destruct d; discriminate. Qed.

Lemma all_digits_NilZero (d : Decimal.uint) :
  all_digits (NilZero.string_of_uint d) = true.
Proof.
  destruct d; try reflexivity;
    apply (all_digits_string_of_uint (_ _)).
Qed.

(** The decimal rendering of a natural number: digits, at least one. *)
Lemma str_of_int_digits (n : Z) :
  0 <= n -> all_digits (str_of_int n) = true /\ str_of_int n <> EmptyString.
Proof.
  intros Hn. unfold str_of_int. destruct n as [|p|p]; [| |lia].
  - split; [reflexivity|discriminate].
  - simpl. split; [apply all_digits_NilZero|apply string_of_uint_not_empty].
Qed.

Lemma is_digit_digit_char (d : Z) : 0 <= d <= 9 -> is_digit (digit_char d) = true.
Proof.
  intros Hd. unfold is_digit, digit_char.
  rewrite nat_ascii_embedding by lia.
  apply andb_true_intro. split; apply Nat.leb_le; lia.
Qed.

Lemma round_half_even_nonneg (n d : Z) : 0 <= n -> 0 < d -> 0 <= round_half_even n d.
Proof.
  intros Hn Hd. unfold round_half_even.
  pose proof (Z.div_pos n d Hn Hd).
  repeat case_match; lia.
Qed.

Lemma thousandths_nonneg (m : positive) (e : Z) : 0 <= thousandths m e.
Proof.
  unfold thousandths. destruct (0 <=? e) eqn:He.
  - apply Z.leb_le in He. pose proof (Z.pow_pos_nonneg 2 e). nia.
  - apply Z.leb_gt in He. apply round_half_even_nonneg; [lia|].
    apply Z.pow_pos_nonneg; lia.
Qed.

Lemma fixed3_three_decimals (neg : bool) (t : Z) :
  0 <= t -> three_decimals (fixed3 neg t).
Proof.
  intros Ht. unfold fixed3.
  destruct (str_of_int_digits (t / 1000)) as [Hdig Hne];
    [apply Z.div_pos; lia|].
  exists (if neg then "-" else EmptyString), (str_of_int (t / 1000)),
    (digit_char (t / 100 mod 10)), (digit_char (t / 10 mod 10)),
    (digit_char (t mod 10)).
  split; [reflexivity|].
  split; [destruct neg; auto|].
  split; [exact Hne|].
  split; [exact Hdig|].
  repeat split; apply is_digit_digit_char;
    pose proof (Z.mod_pos_bound (t / 100) 10);
    pose proof (Z.mod_pos_bound (t / 10) 10);
    pose proof (Z.mod_pos_bound t 10); lia.
Qed.

(** Every finite score is rendered with exactly three decimal places. *)
Lemma format_3f_three_decimals (x : spec_float) :
  is_finite_float x = true -> three_decimals (format_3f x).
Proof.
  destruct x as [s|s| |s m e]; simpl; try discriminate; intros _.
  - apply fixed3_three_decimals. lia.
  - apply fixed3_three_decimals, thousandths_nonneg.
Qed.

(** Infinities and nan are rendered without any decimal place. *)
Lemma format_3f_not_finite :
  format_3f S754_nan = "nan" /\ format_3f (S754_infinity false) = "inf"
  /\ format_3f (S754_infinity true) = "-inf".
Proof. repeat split. Qed.

End DecimalFacts.

(* ===================================================================== *)
(** * Ingestion: text prepared for embedding *)
(* ===================================================================== *)

Section PrepareText.
Context {R : Runtime}.

Lemma prepare_text_take (document : gmap string value) :
  ingestion.prepare_text_for_embedding document
  = str_take (Z.to_nat 5000) (ingestion.title_and_content document).
Proof.
  unfold ingestion.prepare_text_for_embedding.
  destruct (5000 <? len (ingestion.title_and_content document)) eqn:E;
    [reflexivity|].
  apply Z.ltb_ge in E. unfold len in E.
  symmetry. apply str_take_all. lia.
Qed.

(** C4. The text prepared for embedding is [title], a blank line and
    [content] concatenated and cut to its first 5000 characters: it is a
    prefix of the concatenation, it has at most 5000 characters, it is the
    whole concatenation when that fits, the function is total (no error),
    and a list of documents yields one text per document. *)
Theorem prepare_text_is_prefix_cut (document : gmap string value) :
  ingestion.title_and_content document
  = py_str (dict_get_or document "title" (VStr EmptyString))
    +:+ nl +:+ nl
    +:+ py_str (dict_get_or document "content" (VStr EmptyString))
  /\ ingestion.prepare_text_for_embedding document
     = str_take (Z.to_nat 5000) (ingestion.title_and_content document)
  /\ is_prefix_of (ingestion.prepare_text_for_embedding document)
                  (ingestion.title_and_content document)
  /\ len (ingestion.prepare_text_for_embedding document) <= 5000
  /\ (len (ingestion.title_and_content document) <= 5000 ->
      ingestion.prepare_text_for_embedding document
      = ingestion.title_and_content document)
  /\ forall documents : list (gmap string value),
       length (map ingestion.prepare_text_for_embedding documents) = length documents.
Proof.
  split; [reflexivity|].
  rewrite prepare_text_take. repeat split.
  - apply str_take_prefix.
  - unfold len. rewrite length_str_take. lia.
  - unfold len. intros Hfit. apply str_take_all. lia.
  - intros documents. apply length_map.
Qed.

(** C3, as the code has it. A document whose content has 6000 characters is
    embedded as exactly 5000 characters: the first 5000 of title, blank line
    and content together (the title and the blank line count against the
    budget). *)
Theorem long_content_embeds_5000 (document : gmap string value) (content : string) :
  document !! "content" = Some (VStr content) ->
  len content = 6000 ->
  len (ingestion.prepare_text_for_embedding document) = 5000
  /\ ingestion.prepare_text_for_embedding document
     = str_take (Z.to_nat 5000)
         (py_str (dict_get_or document "title" (VStr EmptyString))
          +:+ nl +:+ nl +:+ content).
Proof.
  intros Hc Hlen. rewrite prepare_text_take.
  unfold ingestion.title_and_content.
  assert (dict_get_or document "content" (VStr EmptyString) = VStr content) as ->
    by (unfold dict_get_or; rewrite Hc; reflexivity).
  cbn [py_str]. split; [|reflexivity].
  unfold len in *. rewrite length_str_take, !length_append. lia.
Qed.

End PrepareText.

Lemma prepare_text_is_prefix_cut_witness :
  ingestion.prepare_text_for_embedding (R := Fixture.runtime)
    (Fixture.plant "p1" "Saguaro" "Carnegiea gigantea tolerates extreme heat.")
  = ingestion.title_and_content (R := Fixture.runtime)
      (Fixture.plant "p1" "Saguaro" "Carnegiea gigantea tolerates extreme heat.").
Proof.
  destruct (prepare_text_is_prefix_cut (R := Fixture.runtime)
              (Fixture.plant "p1" "Saguaro" "Carnegiea gigantea tolerates extreme heat."))
    as (_ & _ & _ & _ & Hfits & _).
  apply Hfits. vm_compute. discriminate.
Defined.

Lemma long_content_embeds_5000_witness :
  len (ingestion.prepare_text_for_embedding (R := Fixture.runtime)
         Fixture.long_document) = 5000
  /\ ingestion.prepare_text_for_embedding (R := Fixture.runtime) Fixture.long_document
     = str_take (Z.to_nat 5000)
         (py_str (R := Fixture.runtime)
            (dict_get_or Fixture.long_document "title" (VStr EmptyString))
          +:+ nl +:+ nl +:+ str_repeat "x" (Z.to_nat 6000)).
Proof.
  apply (long_content_embeds_5000 (R := Fixture.runtime) Fixture.long_document
           (str_repeat "x" (Z.to_nat 6000))); vm_compute; reflexivity.
Defined.

(** C3, as stated, fails: for the title [Saguaro] (7 characters) and a content
    of 6000 characters the embedded text has 5000 characters, not
    5000 + 7 + 2. *)
Lemma long_content_counterexample :
  Fixture.long_document !! "title" = Some (VStr "Saguaro")
  /\ (exists content, Fixture.long_document !! "content" = Some (VStr content)
                      /\ len content = 6000)
  /\ len (ingestion.prepare_text_for_embedding (R := Fixture.runtime)
            Fixture.long_document) = 5000
  /\ len (ingestion.prepare_text_for_embedding (R := Fixture.runtime)
            Fixture.long_document) <> 5000 + len "Saguaro" + 2.
Proof.
  split; [vm_compute; reflexivity|].
  split; [eexists; split; vm_compute; reflexivity|].
  split; [vm_compute; reflexivity|].
  vm_compute. discriminate.
Qed.

(* ===================================================================== *)
(** * Ingestion: loading the dataset *)
(* ===================================================================== *)

Section LoadDataset.
Context {F : FileSystem}.

Lemma load_dataset_found (dataset_path : string) :
  path_exists dataset_path = true ->
  ingestion.load_dataset dataset_path
  = (documents ←
       (if String.eqb (path_suffix dataset_path) ".json" then
          f ← open_read dataset_path; json_loads f
        else if String.eqb (path_suffix dataset_path) ".jsonl" then
          f ← open_read dataset_path;
          lines ← rmap json_loads (file_lines f);
          Ok (VList lines)
        else
          Err (ValueError ("Unsupported file format: " +:+ path_suffix dataset_path)));
     _ ← py_len documents;
     Ok documents).
Proof. intros Hex. unfold ingestion.load_dataset. rewrite Hex. reflexivity. Qed.

(** C7. [load_dataset] accepts two encodings, chosen by the suffix of the
    path: [.json], the whole file parsed as one JSON array, and [.jsonl], one
    JSON value parsed per line.  Any other suffix of an existing file is
    rejected with a ValueError; a parser error is passed on as it is; a
    missing file gives a FileNotFoundError, whatever its suffix, and that is
    not a ValueError (the class of the format error and of the parser's
    JSONDecodeError). *)
Theorem load_dataset_encodings (dataset_path : string) :
  (* a missing file *)
  (path_exists dataset_path = false ->
   ingestion.load_dataset dataset_path
   = Err (FileNotFoundError ("Dataset not found: " +:+ dataset_path)))
  (* a JSON array *)
  /\ (forall f docs,
        path_exists dataset_path = true ->
        path_suffix dataset_path = ".json" ->
        open_read dataset_path = Ok f ->
        json_loads f = Ok (VList docs) ->
        ingestion.load_dataset dataset_path = Ok (VList docs))
  (* one JSON value per line *)
  /\ (forall f docs,
        path_exists dataset_path = true ->
        path_suffix dataset_path = ".jsonl" ->
        open_read dataset_path = Ok f ->
        rmap json_loads (file_lines f) = Ok docs ->
        ingestion.load_dataset dataset_path = Ok (VList docs))
  (* malformed content *)
  /\ (forall f e,
        path_exists dataset_path = true ->
        open_read dataset_path = Ok f ->
        (path_suffix dataset_path = ".json" /\ json_loads f = Err e
         \/ path_suffix dataset_path = ".jsonl"
            /\ rmap json_loads (file_lines f) = Err e) ->
        ingestion.load_dataset dataset_path = Err e)
  (* any other suffix *)
  /\ (path_exists dataset_path = true ->
      path_suffix dataset_path <> ".json" ->
      path_suffix dataset_path <> ".jsonl" ->
      ingestion.load_dataset dataset_path
      = Err (ValueError ("Unsupported file format: " +:+ path_suffix dataset_path)))
  (* nothing else is accepted *)
  /\ (forall documents,
        ingestion.load_dataset dataset_path = Ok documents ->
        path_exists dataset_path = true
        /\ (path_suffix dataset_path = ".json" \/ path_suffix dataset_path = ".jsonl"))
  (* the errors are told apart *)
  /\ (forall msg, is_FileNotFoundError (FileNotFoundError msg) = true
                  /\ is_ValueError (FileNotFoundError msg) = false
                  /\ is_ValueError (ValueError msg) = true
                  /\ is_ValueError (JSONDecodeError msg) = true
                  /\ is_FileNotFoundError (ValueError msg) = false
                  /\ is_FileNotFoundError (JSONDecodeError msg) = false).
Proof.
  repeat apply conj.
  - intros Hex. unfold ingestion.load_dataset. rewrite Hex. reflexivity.
  - intros f docs Hex Hsuf Hopen Hjson. rewrite load_dataset_found by exact Hex.
    rewrite Hsuf, Hopen. cbn. rewrite Hjson. reflexivity.
  - intros f docs Hex Hsuf Hopen Hjson. rewrite load_dataset_found by exact Hex.
    rewrite Hsuf, Hopen. cbn. rewrite Hjson. reflexivity.
  - intros f e Hex Hopen [[Hsuf Hjson]|[Hsuf Hjson]];
      rewrite load_dataset_found by exact Hex;
      rewrite Hsuf, Hopen; cbn; rewrite Hjson; reflexivity.
  - intros Hex Hjson Hjsonl. rewrite load_dataset_found by exact Hex.
    apply String.eqb_neq in Hjson, Hjsonl. rewrite Hjson, Hjsonl. reflexivity.
  - intros documents Hok. unfold ingestion.load_dataset in Hok.
    destruct (path_exists dataset_path); [|discriminate]. split; [reflexivity|].
    destruct (String.eqb_spec (path_suffix dataset_path) ".json") as [|_];
      [left; assumption|].
    destruct (String.eqb_spec (path_suffix dataset_path) ".jsonl") as [|_];
      [right; assumption|].
    discriminate.
  - intros msg. repeat split.
Qed.

End LoadDataset.

(** On the sample files: an array, line-delimited objects, a rejected
    suffix, a missing file and malformed content. *)
Lemma load_dataset_encodings_witness :
  ingestion.load_dataset (F := Fixture.files) "plants.json" = Ok (VList [])
  /\ ingestion.load_dataset (F := Fixture.files) "plants.jsonl"
     = Ok (VList [VDict ∅; VDict ∅])
  /\ ingestion.load_dataset (F := Fixture.files) "plants.csv"
     = Err (ValueError "Unsupported file format: .csv")
  /\ ingestion.load_dataset (F := Fixture.files) "missing.json"
     = Err (FileNotFoundError "Dataset not found: missing.json")
  /\ ingestion.load_dataset (F := Fixture.files) "broken.json"
     = Err (JSONDecodeError "Expecting value").
Proof.
  repeat apply conj.
  - destruct (load_dataset_encodings (F := Fixture.files) "plants.json")
      as (_ & Hjson & _).
    apply (Hjson "[]"); reflexivity.
  - destruct (load_dataset_encodings (F := Fixture.files) "plants.jsonl")
      as (_ & _ & Hjsonl & _).
    apply (Hjsonl ("{}" +:+ nl +:+ "{}" +:+ nl)); reflexivity.
  - destruct (load_dataset_encodings (F := Fixture.files) "plants.csv")
      as (_ & _ & _ & _ & Hother & _).
    apply Hother; [reflexivity|discriminate|discriminate].
  - destruct (load_dataset_encodings (F := Fixture.files) "missing.json")
      as (Hmissing & _).
    apply Hmissing. reflexivity.
  - destruct (load_dataset_encodings (F := Fixture.files) "broken.json")
      as (_ & _ & _ & Hbad & _).
    apply (Hbad "[{"); [reflexivity|reflexivity|left; split; reflexivity].
Defined.

(* ===================================================================== *)
(** * Loops, ranges and slices *)
(* ===================================================================== *)

Section SequenceFacts.
Context {A : Type}.

(** Cutting a list into consecutive pieces of [b] elements and gluing them
    back gives the list. *)
Lemma concat_pieces (b : nat) (count : nat) (l : list A) :
  (1 <= b)%nat -> (length l <= count * b)%nat ->
  concat (map (fun k : nat => take b (drop (k * b) l)) (seq 0 count)) = l.
Proof.
  intros Hb. revert l. induction count as [|count IH]; intros l Hlen.
  - simpl in *. destruct l; [reflexivity|simpl in Hlen; lia].
  - rewrite <- cons_seq, <- fmap_S_seq. cbn [map concat].
    change (drop (0 * b) l) with l.
    transitivity (take b l ++ drop b l); [|apply take_drop].
    f_equal.
    rewrite <- (IH (drop b l)) by (rewrite length_drop; lia).
    f_equal. rewrite map_map.
    apply map_ext. intros k. rewrite drop_drop. do 2 f_equal.
Qed.

Lemma py_slice_step (l : list A) (k : nat) (step : Z) :
  1 <= step ->
  py_slice l (0 + Z.of_nat k * step) (0 + Z.of_nat k * step + step)
  = take (Z.to_nat step) (drop (k * Z.to_nat step) l).
Proof.
  intros Hstep. unfold py_slice. f_equal; [f_equal; lia|].
  f_equal. nia.
Qed.

(** The loop [for i in range(0, len(l), step): ... l[i:i + step]] visits
    consecutive pieces of at most [step] elements that make up [l]. *)
Lemma range_slices (l : list A) (step : Z) :
  1 <= step ->
  exists starts,
    py_range 0 (Z.of_nat (length l)) step = Ok starts
    /\ concat (map (fun i => py_slice l i (i + step)) starts) = l
    /\ Forall (fun i => (length (py_slice l i (i + step)) <= Z.to_nat step)%nat) starts.
Proof.
  intros Hstep. unfold py_range.
  destruct (Z.eqb_spec step 0) as [|_]; [lia|].
  destruct (Z.ltb_spec 0 step) as [_|]; [|lia].
  eexists. split; [reflexivity|]. split.
  - rewrite map_map.
    rewrite (map_ext _ (fun k : nat => take (Z.to_nat step) (drop (k * Z.to_nat step) l)))
      by (intros k; apply py_slice_step; exact Hstep).
    apply concat_pieces; [lia|].
    pose proof (Z.div_mod (Z.of_nat (length l) - 0 + step - 1) step ltac:(lia)) as Hdm.
    pose proof (Z.mod_pos_bound (Z.of_nat (length l) - 0 + step - 1) step ltac:(lia)).
    assert (0 <= (Z.of_nat (length l) - 0 + step - 1) / step)
      by (apply Z.div_pos; lia).
    nia.
  - apply Forall_forall. intros i _. unfold py_slice.
    rewrite length_take. lia.
Qed.

Lemma zip3_map {B C : Type} (f : A -> B) (g : A -> C) (l : list A) :
  zip3 l (map f l) (map g l) = map (fun x => (x, f x, g x)) l.
Proof. induction l as [|x l IH]; [reflexivity|]. simpl. rewrite IH. reflexivity. Qed.

Lemma fold_enumerate_append {B : Type} (mk : Z -> A -> B) (l : list A)
    (start : Z) (acc : list B) :
  fold_left (fun (acc : list B) '(i, x) => acc ++ [mk i x]) (enumerate start l) acc
  = acc ++ imap (fun (k : nat) x => mk (start + Z.of_nat k) x) l.
Proof.
  revert start acc. induction l as [|x l IH]; intros start acc.
  - simpl. rewrite app_nil_r. reflexivity.
  - cbn [enumerate fold_left]. rewrite IH, imap_cons, <- app_assoc. cbn.
    do 2 f_equal; [f_equal; lia|].
    apply imap_ext. intros k y _. cbn. f_equal. lia.
Qed.

End SequenceFacts.

Section MonadFacts.

Lemma bind_run {A B : Type} (m : M A) (k : A -> M B) (t : list event) :
  (m ≫= k) t
  = match m t with
    | (Ok a, t') => k a t'
    | (Err e, t') => (Err e, t')
    end.
Proof. reflexivity. Qed.

Lemma bind_call_ok {A B : Type} (ev : event) (a : A) (k : A -> M B) (t : list event) :
  (call ev (Ok a) ≫= k) t = k a (t ++ [ev]).
Proof. reflexivity. Qed.

Lemma bind_lift {A B : Type} (r : result A) (k : A -> M B) (t : list event) :
  (lift r ≫= k) t
  = match r with Ok a => k a t | Err e => (Err e, t) end.
Proof. destruct r; reflexivity. Qed.

(** A loop whose body makes one successful call and appends its answer. *)
Lemma for_each_call_append {A B : Type} (xs : list A) (ev : A -> event)
    (f : A -> list B) (acc : list B) (t : list event) :
  for_each xs (fun (acc : list B) (x : A) =>
                 y ← call (ev x) (Ok (f x)); mret (acc ++ y)) acc t
  = (Ok (acc ++ concat (map f xs)), t ++ map ev xs).
Proof.
  revert acc t. induction xs as [|x xs IH]; intros acc t.
  - cbn. rewrite !app_nil_r. reflexivity.
  - cbn [for_each]. unfold mbind at 1, M_bind.
    rewrite bind_call_ok. cbn [mret M_ret]. rewrite IH.
    cbn [map concat]. rewrite <- !app_assoc. reflexivity.
Qed.

(** A loop whose body makes one call that always succeeds. *)
Lemma for_each_call_unit {A : Type} (xs : list A) (ev : A -> event)
    (answer : A -> result unit) (t : list event) :
  (forall x, answer x = Ok tt) ->
  for_each xs (fun (_ : unit) (x : A) => call (ev x) (answer x)) tt t
  = (Ok tt, t ++ map ev xs).
Proof.
  intros Hok. revert t. induction xs as [|x xs IH]; intros t.
  - cbn. rewrite app_nil_r. reflexivity.
  - cbn [for_each]. unfold mbind, M_bind, call. rewrite Hok, IH.
    cbn [map]. rewrite <- app_assoc. reflexivity.
Qed.

(** A loop whose body makes one call: it stops at the first call that
    fails, having made the calls up to and including that one. *)
Lemma for_each_call_sent {A : Type} (xs : list A) (ev : A -> event)
    (answer : A -> result unit) (t : list event) :
  exists k : nat,
    snd (for_each xs (fun (_ : unit) (x : A) => call (ev x) (answer x)) tt t)
    = t ++ map ev (take k xs).
Proof.
  revert t. induction xs as [|x xs IH]; intros t.
  - exists 0%nat. cbn. rewrite app_nil_r. reflexivity.
  - cbn [for_each]. rewrite bind_run. unfold call at 1.
    destruct (answer x) as [[]|e].
    + destruct (IH (t ++ [ev x])) as [k Hk]. exists (S k).
      rewrite Hk. cbn [take map]. rewrite <- app_assoc. reflexivity.
    + exists 1%nat. cbn. destruct xs; reflexivity.
Qed.

(** A loop that appends one computed entry per element, or stops at the
    first exception. *)
Lemma for_each_lift_append {A B : Type} (f : A -> result B) (xs : list A)
    (acc : list B) (t : list event) :
  for_each xs (fun (acc : list B) (x : A) =>
                 entry ← lift (f x); mret (acc ++ [entry])) acc t
  = (match rmap f xs with Ok ys => Ok (acc ++ ys) | Err e => Err e end, t).
Proof.
  revert acc. induction xs as [|x xs IH]; intros acc.
  - cbn. rewrite app_nil_r. reflexivity.
  - cbn [for_each rmap]. unfold mbind at 1, M_bind. rewrite bind_lift.
    destruct (f x) as [y|e]; [|reflexivity].
    cbn [mret M_ret]. rewrite IH.
    destruct (rmap f xs) as [ys|e]; [|reflexivity].
    rewrite <- app_assoc. reflexivity.
Qed.

Lemma for_each_ret_append {A B : Type} (f : A -> B) (xs : list A)
    (acc : list B) (t : list event) :
  for_each xs (fun (acc : list B) (x : A) => mret (acc ++ [f x])) acc t
  = (Ok (acc ++ map f xs), t).
Proof.
  revert acc. induction xs as [|x xs IH]; intros acc.
  - cbn. rewrite app_nil_r. reflexivity.
  - cbn [for_each]. unfold mbind, M_bind. cbn [mret M_ret]. rewrite IH.
    cbn [map]. rewrite <- app_assoc. reflexivity.
Qed.

Lemma rmap_Ok_iff {A B : Type} (f : A -> result B) (xs : list A) :
  is_Ok (rmap f xs) = true <-> Forall (fun x => is_Ok (f x) = true) xs.
Proof.
  induction xs as [|x xs IH]; [split; constructor|].
  cbn [rmap]. split.
  - intros Hok. destruct (f x) as [y|e] eqn:Ex; [|discriminate].
    constructor; [rewrite Ex; reflexivity|].
    apply IH. destruct (rmap f xs); [reflexivity|discriminate].
  - intros Hall. inversion Hall as [|? ? Hx Hxs]; subst.
    destruct (f x); [|discriminate].
    apply IH in Hxs. destruct (rmap f xs); [reflexivity|discriminate].
Qed.

Lemma rmap_Ok_Forall2 {A B : Type} (f : A -> result B) (xs : list A) (ys : list B) :
  rmap f xs = Ok ys -> Forall2 (fun x y => f x = Ok y) xs ys.
Proof.
  revert ys. induction xs as [|x xs IH]; intros ys Hok; cbn [rmap] in Hok.
  - injection Hok as <-. constructor.
  - destruct (f x) as [y|e] eqn:Ex; [|discriminate].
    destruct (rmap f xs) as [ys'|e]; [|discriminate].
    injection Hok as <-. constructor; [exact Ex|]. apply IH. reflexivity.
Qed.

End MonadFacts.

(* ===================================================================== *)
(** * Ingestion: embeddings and upload *)
(* ===================================================================== *)

Section Embeddings.
Context {R : Runtime} {E : EmbeddingModel} {Q : QdrantClient}.

(** What one run of [create_embeddings] returns and which calls it makes. *)
Lemma create_embeddings_run (documents : list (gmap string value))
    (batch_size : Z) (t : list event) :
  1 <= batch_size ->
  exists batches : list (list string),
    ingestion.create_embeddings documents batch_size t
    = (Ok (map embedded documents), t ++ map EncodeBatch batches)
    /\ concat batches = map ingestion.prepare_text_for_embedding documents
    /\ Forall (fun batch => (length batch <= Z.to_nat batch_size)%nat) batches.
Proof.
  intros Hbs. unfold ingestion.create_embeddings.
  set (texts := map ingestion.prepare_text_for_embedding documents).
  destruct (range_slices texts batch_size Hbs) as (starts & Hrange & Hcat & Hlen).
  exists (map (fun i => py_slice texts i (i + batch_size)) starts).
  split; [|split].
  - rewrite bind_lift, Hrange, bind_run.
    rewrite (for_each_call_append starts
               (fun i => EncodeBatch (py_slice texts i (i + batch_size)))
               (fun i => model_encode_batch (py_slice texts i (i + batch_size)))).
    cbn [app mret M_ret]. rewrite map_map. f_equal.
    rewrite (map_ext _ (fun i => map model_encode (py_slice texts i (i + batch_size))))
      by (intros i; apply model_encode_batch_rows).
    rewrite <- (map_map (fun i => py_slice texts i (i + batch_size)) (map model_encode)).
    rewrite <- concat_map, Hcat. unfold texts. rewrite map_map.
    rewrite zip3_map, map_map. reflexivity.
  - exact Hcat.
  - apply Forall_map. exact Hlen.
Qed.

(** X17. Outside the domain of the property below: a batch size of 0 makes
    [range] raise before the model is called, and a negative one makes the
    loop run no batch, so that [zip] pairs nothing: an empty list is
    returned whatever the documents. *)
Lemma create_embeddings_nonpositive_batch (documents : list (gmap string value))
    (batch_size : Z) (t : list event) :
  (batch_size = 0 ->
   ingestion.create_embeddings documents batch_size t
   = (Err (ValueError "range() arg 3 must not be zero"), t))
  /\ (batch_size < 0 ->
      ingestion.create_embeddings documents batch_size t = (Ok [], t)).
Proof.
  split; intros Hbs; unfold ingestion.create_embeddings; rewrite bind_lift;
    unfold py_range.
  - subst batch_size. reflexivity.
  - destruct (Z.eqb_spec batch_size 0) as [|_]; [lia|].
    destruct (Z.ltb_spec 0 batch_size) as [|_]; [lia|].
    set (texts := map ingestion.prepare_text_for_embedding documents).
    assert ((0 - Z.of_nat (length texts) - batch_size - 1) / - batch_size < 1) as Hcount
      by (apply Z.div_lt_upper_bound; lia).
    replace (Z.to_nat ((0 - Z.of_nat (length texts) - batch_size - 1) / - batch_size))
      with 0%nat by lia.
    cbn. destruct documents; reflexivity.
Qed.

(** C9. For a batch size of at least 1, [create_embeddings] returns one
    entry per document, in the order of the documents, each holding the
    document, the embedding of its prepared text and that text; the result
    is the one obtained with batches of a single text, whatever the batch
    size; the model is called on consecutive batches of at most
    [batch_size] texts. *)
Theorem create_embeddings_aligned (documents : list (gmap string value))
    (batch_size : Z) (t : list event) :
  1 <= batch_size ->
  fst (ingestion.create_embeddings documents batch_size t) = Ok (map embedded documents)
  /\ length (map embedded documents) = length documents
  /\ (forall (i : nat) doc,
        documents !! i = Some doc -> map embedded documents !! i = Some (embedded doc))
  /\ fst (ingestion.create_embeddings documents batch_size t)
     = fst (ingestion.create_embeddings documents 1 t)
  /\ exists batches : list (list string),
       snd (ingestion.create_embeddings documents batch_size t)
       = t ++ map EncodeBatch batches
       /\ concat batches = map ingestion.prepare_text_for_embedding documents
       /\ Forall (fun batch => (length batch <= Z.to_nat batch_size)%nat) batches.
Proof.
  intros Hbs.
  destruct (create_embeddings_run documents batch_size t Hbs)
    as (batches & Hrun & Hcat & Hlen).
  destruct (create_embeddings_run documents 1 t ltac:(lia)) as (ones & Hone & _).
  rewrite Hrun, Hone. cbn [fst snd]. repeat split.
  - apply length_map.
  - intros i doc Hi.
    change (map embedded documents) with (embedded <$> documents).
    rewrite list_lookup_fmap, Hi. reflexivity.
  - exists batches. auto.
Qed.

Lemma make_points_imap (items : list ingestion.DocWithEmbedding) :
  ingestion.make_points items = imap point_of items.
Proof.
  unfold ingestion.make_points.
  rewrite (fold_enumerate_append
             (fun idx item =>
                {| ps_id := idx;
                   ps_vector := ingestion.dwe_embedding item;
                   ps_payload := ingestion.make_payload (ingestion.dwe_document item) |})).
  reflexivity.
Qed.

(** What one run of [upload_to_qdrant] sends: batches of at most 100 points
    that make up an initial part of the points built; all of them, and no
    exception, when the index accepts every batch. *)
Lemma upload_to_qdrant_run (items : list ingestion.DocWithEmbedding) (t : list event) :
  exists batches : list (list PointStruct),
    snd (ingestion.upload_to_qdrant items t) = t ++ map Upsert batches
    /\ (exists rest, imap point_of items = concat batches ++ rest)
    /\ Forall (fun batch => (length batch <= 100)%nat) batches
    /\ ((forall batch, client_upsert batch = Ok tt) ->
        fst (ingestion.upload_to_qdrant items t) = Ok tt
        /\ concat batches = imap point_of items).
Proof.
  unfold ingestion.upload_to_qdrant. cbv zeta.
  rewrite make_points_imap. set (points := imap point_of items).
  destruct (range_slices points 100 ltac:(lia)) as (starts & Hrange & Hcat & Hlen).
  rewrite bind_lift, Hrange.
  destruct (for_each_call_sent starts
              (fun i => Upsert (py_slice points i (i + 100)))
              (fun i => client_upsert (py_slice points i (i + 100))) t) as [k Hk].
  exists (map (fun i => py_slice points i (i + 100)) (take k starts)).
  split; [|split; [|split]].
  - rewrite map_map. exact Hk.
  - exists (concat (map (fun i => py_slice points i (i + 100)) (drop k starts))).
    rewrite <- concat_app, <- map_app, take_drop. symmetry. exact Hcat.
  - apply Forall_map, Forall_take. exact Hlen.
  - intros Hok.
    rewrite (for_each_call_unit starts
               (fun i => Upsert (py_slice points i (i + 100)))
               (fun i => client_upsert (py_slice points i (i + 100))) t
               (fun i => Hok (py_slice points i (i + 100)))) in Hk |- *.
    split; [reflexivity|]. cbn [snd] in Hk.
    apply app_inv_head in Hk.
    assert (take k starts = starts) as ->; [|exact Hcat].
    assert (length (take k starts) = length starts) as Hsame.
    { rewrite <- (length_map (fun i => Upsert (py_slice points i (i + 100)))
                    (take k starts)), <- Hk.
      apply length_map. }
    rewrite length_take in Hsame. apply take_ge. lia.
Qed.

(** C8. In one ingestion run over [documents] (embeddings created, then
    uploaded), every point sent to the index stands at the position of its
    document: the point at position [i] of the upload has id [i], the
    embedding of the text prepared from the [i]-th document and the payload
    made from that document.  When the index accepts every batch, the run
    ends without an exception and has sent one point per document. *)
Theorem uploaded_point_ids_are_positions (documents : list (gmap string value))
    (batch_size : Z) (t : list event) :
  1 <= batch_size ->
  exists items t1 (batches : list (list PointStruct)),
    ingestion.create_embeddings documents batch_size t = (Ok items, t1)
    /\ snd (ingestion.upload_to_qdrant items t1) = t1 ++ map Upsert batches
    /\ (forall (i : nat) point,
          concat batches !! i = Some point ->
          exists doc,
            documents !! i = Some doc
            /\ point
               = {| ps_id := Z.of_nat i;
                    ps_vector := model_encode (ingestion.prepare_text_for_embedding doc);
                    ps_payload := ingestion.make_payload doc |})
    /\ ((forall batch, client_upsert batch = Ok tt) ->
        fst (ingestion.upload_to_qdrant items t1) = Ok tt
        /\ length (concat batches) = length documents
        /\ forall (i : nat) doc,
             documents !! i = Some doc ->
             concat batches !! i
             = Some {| ps_id := Z.of_nat i;
                       ps_vector := model_encode (ingestion.prepare_text_for_embedding doc);
                       ps_payload := ingestion.make_payload doc |}).
Proof.
  intros Hbs.
  destruct (create_embeddings_run documents batch_size t Hbs) as (texts & Hrun & _).
  destruct (upload_to_qdrant_run (map embedded documents)
              (t ++ map EncodeBatch texts))
    as (batches & Hsent & [rest Hrest] & _ & Hall).
  assert (forall (i : nat) doc,
            documents !! i = Some doc ->
            imap point_of (map embedded documents) !! i
            = Some {| ps_id := Z.of_nat i;
                      ps_vector := model_encode (ingestion.prepare_text_for_embedding doc);
                      ps_payload := ingestion.make_payload doc |}) as Hpoint.
  { intros i doc Hi. rewrite list_lookup_imap.
    change (map embedded documents) with (embedded <$> documents).
    rewrite list_lookup_fmap, Hi. reflexivity. }
  exists (map embedded documents), (t ++ map EncodeBatch texts), batches.
  split; [exact Hrun|]. split; [exact Hsent|]. split.
  - intros i point Hi.
    assert (imap point_of (map embedded documents) !! i = Some point) as Hin
      by (rewrite Hrest; apply lookup_app_l_Some; exact Hi).
    destruct (documents !! i) as [doc|] eqn:Hdoc.
    + exists doc. split; [reflexivity|].
      rewrite (Hpoint i doc Hdoc) in Hin. congruence.
    + apply lookup_lt_Some in Hin.
      rewrite length_imap, length_map in Hin.
      apply lookup_ge_None in Hdoc. lia.
  - intros Hok. destruct (Hall Hok) as [Hfst Hcat]. rewrite Hcat.
    split; [exact Hfst|]. split; [|exact Hpoint].
    rewrite length_imap, length_map. reflexivity.
Qed.

End Embeddings.

Lemma create_embeddings_aligned_witness :
  fst (ingestion.create_embeddings (R := Fixture.runtime) (E := Fixture.model)
         (map sp_payload Fixture.ranked) 4 [])
  = fst (ingestion.create_embeddings (R := Fixture.runtime) (E := Fixture.model)
           (map sp_payload Fixture.ranked) 1 []).
Proof.
  apply (create_embeddings_aligned (R := Fixture.runtime) (E := Fixture.model)
           (map sp_payload Fixture.ranked) 4 []). lia.
Defined.

Lemma uploaded_point_ids_are_positions_witness :
  exists items t1 (batches : list (list PointStruct)),
    ingestion.create_embeddings (R := Fixture.runtime) (E := Fixture.model)
      (map sp_payload Fixture.ranked) 4 [] = (Ok items, t1)
    /\ snd (ingestion.upload_to_qdrant (Q := Fixture.qdrant []) items t1)
       = t1 ++ map Upsert batches
    /\ fst (ingestion.upload_to_qdrant (Q := Fixture.qdrant []) items t1) = Ok tt
    /\ length (concat batches) = length (map sp_payload Fixture.ranked).
Proof.
  destruct (uploaded_point_ids_are_positions (R := Fixture.runtime)
              (E := Fixture.model) (Q := Fixture.qdrant [])
              (map sp_payload Fixture.ranked) 4 [] ltac:(lia))
    as (items & t1 & batches & Hrun & Hsent & _ & Hall).
  destruct (Hall (fun _ => eq_refl)) as (Hfst & Hlen & _).
  exists items, t1, batches. auto.
Defined.

(* ===================================================================== *)
(** * Retrieval *)
(* ===================================================================== *)

Section Retrieval.
Context {E : EmbeddingModel} {Q : QdrantClient}.

(** What one run of the assistant's [search] does. *)
Lemma assistant_search_run (query : string) (limit : Z) (t : list event) :
  ArizonaPlantVectorStore.search query limit t
  = (match client_query_points (model_encode query) limit with
     | Ok points => Ok (map ArizonaPlantVectorStore.format_point points)
     | Err e => Err e
     end,
     t ++ [EncodeOne query; QueryPoints (model_encode query) limit]).
Proof.
  unfold ArizonaPlantVectorStore.search.
  rewrite bind_call_ok, bind_run. unfold call.
  rewrite <- app_assoc. cbn [app].
  destruct (client_query_points (model_encode query) limit) as [points|e];
    [|reflexivity].
  rewrite for_each_ret_append. reflexivity.
Qed.

(** What one run of the ingestion module's [search] does. *)
Lemma ingestion_search_run (query : string) (limit : Z) (t : list event) :
  ingestion.search query limit t
  = (match client_search (model_encode query) limit with
     | Ok points => rmap ingestion.format_result points
     | Err e => Err e
     end,
     t ++ [EncodeOne query; ClientSearch (model_encode query) limit]).
Proof.
  unfold ingestion.search.
  rewrite bind_call_ok, bind_run. unfold call.
  rewrite <- app_assoc. cbn [app].
  destruct (client_search (model_encode query) limit) as [points|e];
    [|reflexivity].
  rewrite for_each_lift_append.
  destruct (rmap ingestion.format_result points); reflexivity.
Qed.

(** When [format_result] succeeds. *)
Lemma format_result_Ok_iff (point : ScoredPoint) :
  is_Ok (ingestion.format_result point) = true
  <-> exists s, sp_payload point !! "content" = Some (VStr s).
Proof.
  unfold ingestion.format_result, dict_get.
  destruct (sp_payload point !! "content") as [[| | | |s| |]|]; cbn;
    split; try discriminate; try (intros [s' Hs']; discriminate).
  - intros _. exists s. reflexivity.
  - reflexivity.
Qed.

Lemma format_results_Ok_iff (points : list ScoredPoint) :
  is_Ok (rmap ingestion.format_result points) = true
  <-> Forall (fun point => exists s, sp_payload point !! "content" = Some (VStr s))
             points.
Proof.
  rewrite rmap_Ok_iff. apply Forall_iff. intros p. apply format_result_Ok_iff.
Qed.

Lemma format_result_stored (point : ScoredPoint) (s : string) :
  sp_payload point !! "content" = Some (VStr s) ->
  exists hit,
    ingestion.format_result point = Ok hit
    /\ as_stored ["id"; "title"; "type"; "source"; "metadata"] point hit
    /\ hit_content hit = VStr (str_take 500 s +:+ "...").
Proof.
  intros Hs. unfold ingestion.format_result, dict_get. rewrite Hs. cbn.
  eexists. split; [reflexivity|]. split; [|reflexivity].
  split; [reflexivity|].
  intros key v Hkey Hv. cbn in Hkey.
  destruct Hkey as [<-|[<-|[<-|[<-|[<-|[]]]]]]; cbn; rewrite Hv; reflexivity.
Qed.

Lemma format_point_stored (point : ScoredPoint) :
  as_stored ["id"; "title"; "content"; "type"; "source"; "metadata"] point
            (ArizonaPlantVectorStore.format_point point).
Proof.
  split; [reflexivity|].
  intros key v Hkey Hv. cbn in Hkey. unfold ArizonaPlantVectorStore.format_point.
  destruct Hkey as [<-|[<-|[<-|[<-|[<-|[<-|[]]]]]]]; cbn;
    unfold dict_get_or; rewrite Hv; reflexivity.
Qed.

(** C5, as the code has it. Neither [search] checks [top_k]: whatever its
    value, the query is embedded and one index query carrying that value
    unchanged is issued, and an error of the index is passed on.  Values
    outside 1..10 are rejected by the request model of the transport layer,
    which also accepts every value within. *)
Theorem search_forwards_top_k (query : string) (top_k : Z) (t : list event) :
  snd (ArizonaPlantVectorStore.search query top_k t)
  = t ++ [EncodeOne query; QueryPoints (model_encode query) top_k]
  /\ snd (ingestion.search query top_k t)
     = t ++ [EncodeOne query; ClientSearch (model_encode query) top_k]
  /\ (forall e, client_query_points (model_encode query) top_k = Err e ->
                fst (ArizonaPlantVectorStore.search query top_k t) = Err e)
  /\ (forall e, client_search (model_encode query) top_k = Err e ->
                fst (ingestion.search query top_k t) = Err e)
  /\ (forall question, top_k <= 0 \/ 10 < top_k ->
        app.QueryRequest_validate question top_k = Err (ValidationError "QueryRequest"))
  /\ (forall question, 3 <= len question -> 1 <= top_k <= 10 ->
        app.QueryRequest_validate question top_k
        = Ok {| app.req_question := question; app.req_top_k := top_k |}).
Proof.
  rewrite assistant_search_run, ingestion_search_run. cbn [fst snd].
  repeat apply conj; try reflexivity.
  - intros e ->. reflexivity.
  - intros e ->. reflexivity.
  - intros question Hout. unfold app.QueryRequest_validate.
    repeat case_match; try reflexivity; lia.
  - intros question Hq Hk. unfold app.QueryRequest_validate.
    repeat case_match; try reflexivity; lia.
Qed.

(** C6, as the code has it. Both [search] operations embed the query once,
    as a single text, issue one index query with that vector and [top_k],
    and return one result per matched point, in the order of the index,
    with the score and the stored payload fields; the assistant's returns
    the content as stored, the ingestion module's (which needs every content
    to be a string) returns its first 500 characters followed by three
    dots. *)
Theorem search_returns_stored_fields (query : string) (top_k : Z)
    (points : list ScoredPoint) (t : list event) :
  (client_query_points (model_encode query) top_k = Ok points ->
   exists hits,
     ArizonaPlantVectorStore.search query top_k t
     = (Ok hits, t ++ [EncodeOne query; QueryPoints (model_encode query) top_k])
     /\ Forall2 (as_stored ["id"; "title"; "content"; "type"; "source"; "metadata"])
                points hits)
  /\ (client_search (model_encode query) top_k = Ok points ->
      Forall (fun point => exists s, sp_payload point !! "content" = Some (VStr s))
             points ->
      exists hits,
        ingestion.search query top_k t
        = (Ok hits, t ++ [EncodeOne query; ClientSearch (model_encode query) top_k])
        /\ Forall2 (fun point hit =>
                      as_stored ["id"; "title"; "type"; "source"; "metadata"] point hit
                      /\ exists s, sp_payload point !! "content" = Some (VStr s)
                                   /\ hit_content hit = VStr (str_take 500 s +:+ "..."))
                   points hits).
Proof.
  split.
  - intros Hq. rewrite assistant_search_run, Hq. eexists. split; [reflexivity|].
    clear Hq. induction points as [|p ps IH]; constructor;
      [apply format_point_stored|exact IH].
  - intros Hq Hall. rewrite ingestion_search_run, Hq. clear Hq.
    assert (exists hits, rmap ingestion.format_result points = Ok hits) as [hits Hhits].
    { apply format_results_Ok_iff in Hall.
      destruct (rmap _ points); [eauto|discriminate]. }
    exists hits. rewrite Hhits. split; [reflexivity|].
    apply rmap_Ok_Forall2 in Hhits.
    induction Hhits as [|p hit ps hits' Hp _ IH]; [constructor|].
    inversion Hall as [|? ? [s Hs] Hps]; subst.
    constructor; [|apply IH; exact Hps].
    destruct (format_result_stored p s Hs) as (hit' & Hhit & Hstored & Hcontent).
    rewrite Hhit in Hp. injection Hp as <-.
    split; [exact Hstored|]. exists s. split; [exact Hs|exact Hcontent].
Qed.

(** C10. Given the points the index matched, the ingestion module's [search]
    returns normally exactly when the payload of every point has a string
    under [content]; a point without [content] makes it raise, with the
    TypeError of subscripting [None] when that point comes first. *)
Theorem ingestion_search_needs_string_content (query : string) (limit : Z)
    (points : list ScoredPoint) (t : list event) :
  client_search (model_encode query) limit = Ok points ->
  (is_Ok (fst (ingestion.search query limit t)) = true
   <-> Forall (fun point => exists s, sp_payload point !! "content" = Some (VStr s))
              points)
  /\ (Exists (fun point => sp_payload point !! "content" = None) points ->
      exists e, fst (ingestion.search query limit t) = Err e)
  /\ (forall point rest,
        points = point :: rest -> sp_payload point !! "content" = None ->
        fst (ingestion.search query limit t)
        = Err (TypeError "'NoneType' object is not subscriptable")).
Proof.
  intros Hq. rewrite ingestion_search_run, Hq. cbn [fst].
  pose proof (format_results_Ok_iff points) as Hiff.
  split; [exact Hiff|]. split.
  - intros Hex. destruct (rmap ingestion.format_result points) as [hits|e] eqn:Er;
      [|eauto].
    exfalso. assert (Hall : Forall (fun point => exists s,
                sp_payload point !! "content" = Some (VStr s)) points)
      by (apply Hiff; reflexivity).
    apply Exists_exists in Hex as (p & Hin & Hnone).
    rewrite Forall_forall in Hall. destruct (Hall p Hin) as [s Hs].
    congruence.
  - intros p rest -> Hnone. cbn [rmap].
    unfold ingestion.format_result, dict_get. rewrite Hnone. reflexivity.
Qed.

End Retrieval.

(** C5, as stated, fails: with [top_k] 0 or negative both [search]
    operations still embed the query and put the request to the index, with
    [top_k] as it came. *)
Lemma nonpositive_top_k_counterexample :
  snd (ArizonaPlantVectorStore.search (E := Fixture.model)
         (Q := Fixture.qdrant Fixture.ranked) "drought tolerant cactus" 0 [])
  = [EncodeOne "drought tolerant cactus";
     QueryPoints (model_encode (EmbeddingModel := Fixture.model)
                    "drought tolerant cactus") 0]
  /\ snd (ingestion.search (E := Fixture.model)
            (Q := Fixture.qdrant Fixture.ranked) "drought tolerant cactus" (-1) [])
     = [EncodeOne "drought tolerant cactus";
        ClientSearch (model_encode (EmbeddingModel := Fixture.model)
                        "drought tolerant cactus") (-1)].
Proof. split; vm_compute; reflexivity. Qed.

Lemma search_forwards_top_k_witness :
  app.QueryRequest_validate "saguaro care" 0 = Err (ValidationError "QueryRequest")
  /\ app.QueryRequest_validate "saguaro care" 11 = Err (ValidationError "QueryRequest")
  /\ app.QueryRequest_validate "saguaro care" 3
     = Ok {| app.req_question := "saguaro care"; app.req_top_k := 3 |}.
Proof.
  repeat apply conj.
  - destruct (search_forwards_top_k (E := Fixture.model)
                (Q := Fixture.qdrant Fixture.ranked) "saguaro care" 0 [])
      as (_ & _ & _ & _ & Hout & _).
    apply Hout. lia.
  - destruct (search_forwards_top_k (E := Fixture.model)
                (Q := Fixture.qdrant Fixture.ranked) "saguaro care" 11 [])
      as (_ & _ & _ & _ & Hout & _).
    apply Hout. lia.
  - destruct (search_forwards_top_k (E := Fixture.model)
                (Q := Fixture.qdrant Fixture.ranked) "saguaro care" 3 [])
      as (_ & _ & _ & _ & _ & Hin).
    apply Hin; [vm_compute; discriminate|lia].
Defined.

(** C6, as stated, fails for the ingestion module's [search]: the stored
    content comes back with three dots appended. *)
Lemma search_content_counterexample :
  client_search (QdrantClient := Fixture.qdrant Fixture.ranked)
    (model_encode (EmbeddingModel := Fixture.model) "drought tolerant cactus") 1
  = Ok (take 1 Fixture.ranked)
  /\ (fun point => sp_payload point !! "content") <$> take 1 Fixture.ranked
     = [Some (VStr "Carnegiea gigantea tolerates extreme heat.")]
  /\ exists hit,
       fst (ingestion.search (E := Fixture.model) (Q := Fixture.qdrant Fixture.ranked)
              "drought tolerant cactus" 1 []) = Ok [hit]
       /\ hit_content hit = VStr "Carnegiea gigantea tolerates extreme heat...."
       /\ hit_content hit <> VStr "Carnegiea gigantea tolerates extreme heat.".
Proof.
  split; [reflexivity|]. split; [vm_compute; reflexivity|].
  eexists. split; [vm_compute; reflexivity|].
  split; [reflexivity|discriminate].
Qed.

Lemma search_returns_stored_fields_witness :
  (exists hits,
     ArizonaPlantVectorStore.search (E := Fixture.model)
       (Q := Fixture.qdrant Fixture.ranked) "drought tolerant cactus" 2 []
     = (Ok hits,
        [] ++ [EncodeOne "drought tolerant cactus";
               QueryPoints (model_encode (EmbeddingModel := Fixture.model)
                              "drought tolerant cactus") 2])
     /\ Forall2 (as_stored ["id"; "title"; "content"; "type"; "source"; "metadata"])
                (take 2 Fixture.ranked) hits)
  /\ (exists hits,
        ingestion.search (E := Fixture.model)
          (Q := Fixture.qdrant Fixture.ranked) "drought tolerant cactus" 2 []
        = (Ok hits,
           [] ++ [EncodeOne "drought tolerant cactus";
                  ClientSearch (model_encode (EmbeddingModel := Fixture.model)
                                  "drought tolerant cactus") 2])
        /\ Forall2 (fun point hit =>
                      as_stored ["id"; "title"; "type"; "source"; "metadata"] point hit
                      /\ exists s, sp_payload point !! "content" = Some (VStr s)
                                   /\ hit_content hit = VStr (str_take 500 s +:+ "..."))
                   (take 2 Fixture.ranked) hits).
Proof.
  destruct (search_returns_stored_fields (E := Fixture.model)
              (Q := Fixture.qdrant Fixture.ranked)
              "drought tolerant cactus" 2 (take 2 Fixture.ranked) [])
    as (Hassistant & Hingestion).
  split.
  - apply Hassistant. reflexivity.
  - apply Hingestion; [reflexivity|].
    repeat constructor; eexists; vm_compute; reflexivity.
Defined.

Lemma ingestion_search_needs_string_content_witness :
  fst (ingestion.search (E := Fixture.model)
         (Q := Fixture.qdrant [Fixture.no_content]) "saguaro care" 1 [])
  = Err (TypeError "'NoneType' object is not subscriptable").
Proof.
  destruct (ingestion_search_needs_string_content (E := Fixture.model)
              (Q := Fixture.qdrant [Fixture.no_content]) "saguaro care" 1
              [Fixture.no_content] [] eq_refl) as (_ & _ & Hfirst).
  apply (Hfirst Fixture.no_content []); reflexivity.
Defined.

(* ===================================================================== *)
(** * The prompt *)
(* ===================================================================== *)

Section PromptFacts.
Local Open Scope nat_scope.

Lemma str_drop_append (s t : string) : str_drop (String.length s) (s +:+ t) = t.
Proof. induction s as [|c s IH]; [reflexivity|]. rewrite append_cons. exact IH. Qed.

Lemma ends_with_append (s t : string) : ends_with (s +:+ t) t = true.
Proof.
  unfold ends_with. rewrite length_append.
  replace (String.length s + String.length t - String.length t)
    with (String.length s) by lia.
  rewrite str_drop_append, String.eqb_refl, andb_true_r.
  apply Nat.leb_le. lia.
Qed.

Lemma fold_left_append {A B : Type} (f : list B -> A -> list B) (g : A -> list B)
    (xs : list A) (acc : list B) :
  (forall acc x, f acc x = acc ++ g x) ->
  fold_left f xs acc = acc ++ concat (map g xs).
Proof.
  intros Hf. revert acc.
  induction xs as [|x xs IH]; intros acc; cbn [fold_left map concat].
  - rewrite app_nil_r. reflexivity.
  - rewrite IH, Hf, <- app_assoc. reflexivity.
Qed.

Lemma length_enumerate {A : Type} (start : Z) (xs : list A) :
  length (enumerate start xs) = length xs.
Proof.
  revert start. induction xs as [|x xs IH]; intros start; [reflexivity|].
  cbn [enumerate length]. rewrite IH. reflexivity.
Qed.

Lemma lookup_enumerate {A : Type} (start : Z) (xs : list A) (k : nat) (x : A) :
  xs !! k = Some x -> enumerate start xs !! k = Some ((start + Z.of_nat k)%Z, x).
Proof.
  revert start k. induction xs as [|y xs IH]; intros start k Hk; [discriminate|].
  destruct k as [|k].
  - injection Hk as ->. cbn. do 2 f_equal. lia.
  - change (enumerate (start + 1) xs !! k
            = Some ((start + Z.of_nat (S k))%Z, x)).
    rewrite (IH (start + 1)%Z k Hk). do 2 f_equal. lia.
Qed.

(** Joining groups of four lines and an empty one is joining blocks that
    each end their four lines with a newline. *)
Lemma join_groups {A : Type} (a b c d : A -> string) (ps : list A) :
  join nl (concat (map (fun p => [a p; b p; c p; d p; EmptyString]) ps))
  = join nl (map (fun p => a p +:+ nl +:+ b p +:+ nl +:+ c p +:+ nl +:+ d p +:+ nl) ps).
Proof.
  induction ps as [|p ps IH]; [reflexivity|].
  cbn [map concat app]. destruct ps as [|p' ps].
  - cbn. rewrite !append_empty_r. reflexivity.
  - rewrite (join_cons nl (a p +:+ _)) by discriminate.
    rewrite <- IH. cbn [map concat app].
    rewrite !join_cons by discriminate.
    rewrite !append_assoc. reflexivity.
Qed.

End PromptFacts.

Section Prompt.
Context {R : Runtime}.

Lemma context_parts_groups (results : list SearchHit) :
  ArizonaPlantRAG.context_parts results
  = concat (map (fun p : Z * SearchHit =>
                   [ "Document " +:+ str_of_int p.1 +:+ " (Score: "
                     +:+ format_3f (hit_score p.2) +:+ "):";
                     "Title: " +:+ py_str (hit_title p.2);
                     "Source: " +:+ py_str (hit_source p.2);
                     "Content: " +:+ py_str (hit_content p.2);
                     EmptyString ])
                (enumerate 1 results)).
Proof.
  unfold ArizonaPlantRAG.context_parts.
  rewrite <- (app_nil_l (concat _)).
  apply fold_left_append. intros parts [i r]. reflexivity.
Qed.

(** The context is the blocks of the results, ranked from 1, joined by
    newlines. *)
Lemma context_blocks (results : list SearchHit) :
  join nl (ArizonaPlantRAG.context_parts results)
  = join nl (map (fun '(rank, hit) => document_block rank hit) (enumerate 1 results)).
Proof.
  rewrite context_parts_groups, join_groups. f_equal.
  apply map_ext. intros [rank hit]. unfold document_block. cbn [fst snd].
  rewrite !append_assoc. reflexivity.
Qed.

Lemma prompt_intro_head : exists r, ArizonaPlantRAG.prompt_intro = String "Y" r.
Proof. eexists. vm_compute. reflexivity. Qed.

Lemma prompt_instructions_last :
  exists u, ArizonaPlantRAG.prompt_instructions = u +:+ String ":" EmptyString.
Proof.
  exists (str_take (String.length ArizonaPlantRAG.prompt_instructions - 1)
            ArizonaPlantRAG.prompt_instructions).
  vm_compute. reflexivity.
Qed.

(** [strip] removes nothing from the prompt. *)
Lemma build_prompt_unstripped (query : string) (results : list SearchHit) :
  ArizonaPlantRAG.build_prompt query results
  = ArizonaPlantRAG.prompt_intro
    +:+ join nl (ArizonaPlantRAG.context_parts results)
    +:+ ArizonaPlantRAG.prompt_question +:+ query
    +:+ ArizonaPlantRAG.prompt_instructions.
Proof.
  unfold ArizonaPlantRAG.build_prompt. cbv zeta.
  destruct prompt_intro_head as [r ->].
  destruct prompt_instructions_last as [u ->].
  set (context := join nl (ArizonaPlantRAG.context_parts results)).
  replace (String "Y" r +:+ context +:+ ArizonaPlantRAG.prompt_question +:+ query
           +:+ u +:+ String ":" EmptyString)
    with (String "Y" ((r +:+ context +:+ ArizonaPlantRAG.prompt_question +:+ query +:+ u)
                      +:+ String ":" EmptyString))
    by (rewrite append_cons, !append_assoc; reflexivity).
  apply strip_keeps; reflexivity.
Qed.

(** C2, as the code has it. The prompt is the fixed introduction, then one
    labeled block per result, in rank order and ranked from 1 (rank and
    score, title, source, content, each block followed by a blank line),
    then the question line with the query verbatim, then the fixed
    instructions, whose last line is [Answer:]; every finite score is
    rendered with exactly three decimal places. *)
Theorem build_prompt_layout (query : string) (results : list SearchHit) :
  ArizonaPlantRAG.build_prompt query results
  = ArizonaPlantRAG.prompt_intro
    +:+ join nl (map (fun '(rank, hit) => document_block rank hit)
                     (enumerate 1 results))
    +:+ ArizonaPlantRAG.prompt_question +:+ query
    +:+ ArizonaPlantRAG.prompt_instructions
  /\ length (enumerate 1 results) = length results
  /\ (forall (k : nat) hit,
        results !! k = Some hit ->
        enumerate 1 results !! k = Some (1 + Z.of_nat k, hit))
  /\ (forall hit,
        In hit results -> is_finite_float (hit_score hit) = true ->
        three_decimals (format_3f (hit_score hit)))
  /\ ends_with (ArizonaPlantRAG.build_prompt query results)
               ArizonaPlantRAG.prompt_instructions = true
  /\ ends_with ArizonaPlantRAG.prompt_instructions "Answer:" = true.
Proof.
  rewrite build_prompt_unstripped, context_blocks. repeat apply conj.
  - reflexivity.
  - apply length_enumerate.
  - intros k hit Hk. apply lookup_enumerate. exact Hk.
  - intros hit _ Hfin. apply format_3f_three_decimals. exact Hfin.
  - rewrite <- !append_assoc. apply ends_with_append.
  - vm_compute. reflexivity.
Qed.

End Prompt.

Lemma build_prompt_layout_witness :
  three_decimals (format_3f (S754_finite false 13 (-4)))
  /\ format_3f (S754_finite false 13 (-4)) = "0.812".
Proof.
  split; [|reflexivity].
  destruct (build_prompt_layout (R := Fixture.runtime) "drought tolerant cactus"
              (map ArizonaPlantVectorStore.format_point (take 2 Fixture.ranked)))
    as (_ & _ & _ & Hscore & _).
  apply (Hscore (ArizonaPlantVectorStore.format_point
                   (Fixture.scored 1 13 (-4)
                      (Fixture.plant "p2" "Ocotillo"
                         "Fouquieria splendens leafs out after rain."))));
    [right; left; reflexivity|reflexivity].
Defined.

(** C2, as stated, fails: the prompt built for two results ends with the
    instructions and [Answer:], not with the query; and a score that is not
    a number is rendered without decimal places. *)
Lemma prompt_end_counterexample :
  map ArizonaPlantVectorStore.format_point (take 2 Fixture.ranked) <> []
  /\ ends_with
       (ArizonaPlantRAG.build_prompt (R := Fixture.runtime) "drought tolerant cactus"
          (map ArizonaPlantVectorStore.format_point (take 2 Fixture.ranked)))
       "drought tolerant cactus" = false
  /\ ends_with
       (ArizonaPlantRAG.build_prompt (R := Fixture.runtime) "drought tolerant cactus"
          (map ArizonaPlantVectorStore.format_point (take 2 Fixture.ranked)))
       "Answer:" = true
  /\ format_3f S754_nan = "nan".
Proof. repeat apply conj; try (vm_compute; reflexivity). discriminate. Qed.

(* ===================================================================== *)
(** * The question-answering endpoint *)
(* ===================================================================== *)

Section Endpoint.
Context {R : Runtime} {E : EmbeddingModel} {Q : QdrantClient} {O : OpenAIClient}.

(** What one successful run of [query_rag] does: the prompt is built from
    a search with limit 5, the documents of the response come from a second
    search with limit [top_k]. *)
Lemma query_rag_run (question : string) (top_k : Z) (t : list event)
    (prompt_points returned_points : list ScoredPoint) (answer : string)
    (documents : list app.SearchResult) :
  client_query_points (model_encode question) 5 = Ok prompt_points ->
  chat_completions_create
    (ArizonaPlantRAG.build_prompt question
       (map ArizonaPlantVectorStore.format_point prompt_points)) = Ok answer ->
  client_query_points (model_encode question) top_k = Ok returned_points ->
  rmap app.to_search_result
       (map ArizonaPlantVectorStore.format_point returned_points) = Ok documents ->
  app.query_rag true {| app.req_question := question; app.req_top_k := top_k |} t
  = (Ok {| app.resp_question := question;
           app.resp_answer := answer;
           app.resp_retrieved_documents := documents;
           app.resp_model := "gpt-4o-mini" |},
     t ++ [ EncodeOne question;
            QueryPoints (model_encode question) 5;
            ChatCompletion
              (ArizonaPlantRAG.build_prompt question
                 (map ArizonaPlantVectorStore.format_point prompt_points));
            EncodeOne question;
            QueryPoints (model_encode question) top_k ]).
Proof.
  intros Hfive Hllm Hk Hdocs.
  unfold app.query_rag, try_except. cbn [negb app.req_question app.req_top_k].
  rewrite bind_run. cbn [mret M_ret].
  rewrite bind_run. unfold ArizonaPlantRAG.rag.
  rewrite bind_run, assistant_search_run, Hfive.
  rewrite bind_run. unfold ArizonaPlantRAG.llm, call at 1. rewrite Hllm.
  cbn [mret M_ret].
  rewrite bind_run, assistant_search_run, Hk.
  rewrite bind_lift, Hdocs.
  rewrite <- !app_assoc. reflexivity.
Qed.

End Endpoint.

(** C1. On a collection of six documents, a request with [top_k] 2: the
    prompt sent to the language model is built from the five best documents,
    the response lists the two best. *)
Theorem query_rag_documents_differ_from_prompt :
  exists response,
    app.query_rag (R := Fixture.runtime) (E := Fixture.model)
      (Q := Fixture.qdrant Fixture.ranked) (O := Fixture.openai) true
      {| app.req_question := "saguaro care"; app.req_top_k := 2 |} []
    = (Ok response,
       [ EncodeOne "saguaro care";
         QueryPoints (model_encode (EmbeddingModel := Fixture.model) "saguaro care") 5;
         ChatCompletion
           (ArizonaPlantRAG.build_prompt (R := Fixture.runtime) "saguaro care"
              (map ArizonaPlantVectorStore.format_point (take 5 Fixture.ranked)));
         EncodeOne "saguaro care";
         QueryPoints (model_encode (EmbeddingModel := Fixture.model) "saguaro care") 2 ])
    /\ map app.res_title (app.resp_retrieved_documents response)
       = ["Saguaro"; "Ocotillo"]
    /\ map (fun hit => hit_title hit)
           (map ArizonaPlantVectorStore.format_point (take 5 Fixture.ranked))
       = [VStr "Saguaro"; VStr "Ocotillo"; VStr "Palo Verde"; VStr "Cholla"; VStr "Agave"]
    /\ length (app.resp_retrieved_documents response) = 2%nat
    /\ length (map ArizonaPlantVectorStore.format_point (take 5 Fixture.ranked)) = 5%nat.
Proof.
  eexists. split; [|repeat apply conj].
  - apply (query_rag_run (R := Fixture.runtime) (E := Fixture.model)
             (Q := Fixture.qdrant Fixture.ranked) (O := Fixture.openai)
             "saguaro care" 2 [] (take 5 Fixture.ranked) (take 2 Fixture.ranked));
      vm_compute; reflexivity.
  - reflexivity.
  - vm_compute. reflexivity.
  - reflexivity.
  - reflexivity.
Qed.

(* ===================================================================== *)
(** * Ingestion: how many calls a run makes, and how it ends *)
(* ===================================================================== *)

Section BatchFacts.
Context {A : Type}.

(** The loop [for i in range(0, len(l), step)] runs once per [step]
    elements, rounded up, and never on an empty piece. *)
Lemma range_pieces (l : list A) (step : Z) :
  1 <= step ->
  exists starts,
    py_range 0 (Z.of_nat (length l)) step = Ok starts
    /\ Z.of_nat (length starts) = (Z.of_nat (length l) + step - 1) / step
    /\ Forall (fun i => (1 <= length (py_slice l i (i + step)) <= Z.to_nat step)%nat)
              starts.
Proof.
  intros Hstep. unfold py_range.
  destruct (Z.eqb_spec step 0) as [|_]; [lia|].
  destruct (Z.ltb_spec 0 step) as [_|]; [|lia].
  rewrite Z.sub_0_r.
  set (n := Z.of_nat (length l)).
  assert (0 <= (n + step - 1) / step) as Hcount by (apply Z.div_pos; lia).
  pose proof (Z.mul_div_le (n + step - 1) step ltac:(lia)) as Hle.
  eexists. split; [reflexivity|]. split.
  - rewrite length_map, length_seq. lia.
  - apply Forall_map, Forall_forall. intros k Hk.
    apply elem_of_seq in Hk. cbn beta.
    rewrite py_slice_step by exact Hstep.
    rewrite length_take, length_drop.
    assert (Z.of_nat k * step < n) by nia.
    assert (Z.of_nat (k * Z.to_nat step) = Z.of_nat k * step) by nia.
    subst n. lia.
Qed.

Lemma for_each_call_cons (x : A) (xs : list A) (ev : A -> event)
    (answer : A -> result unit) (t : list event) :
  for_each (x :: xs) (fun (_ : unit) (x : A) => call (ev x) (answer x)) tt t
  = match answer x with
    | Ok _ => for_each xs (fun (_ : unit) (x : A) => call (ev x) (answer x)) tt
                       (t ++ [ev x])
    | Err e => (Err e, t ++ [ev x])
    end.
Proof.
  cbn [for_each]. rewrite bind_run. unfold call at 1.
  destruct (answer x) as [[]|e]; reflexivity.
Qed.

(** A loop whose body makes one call: it ends normally exactly when every
    call is accepted, and otherwise with the exception of the first call
    refused, nothing being called after it. *)
Lemma for_each_call_outcome (xs : list A) (ev : A -> event)
    (answer : A -> result unit) (t : list event) :
  (fst (for_each xs (fun (_ : unit) (x : A) => call (ev x) (answer x)) tt t) = Ok tt ->
   Forall (fun x => answer x = Ok tt) xs
   /\ snd (for_each xs (fun (_ : unit) (x : A) => call (ev x) (answer x)) tt t)
      = t ++ map ev xs)
  /\ (forall e,
        fst (for_each xs (fun (_ : unit) (x : A) => call (ev x) (answer x)) tt t)
        = Err e ->
        exists pre x post,
          xs = pre ++ x :: post
          /\ Forall (fun x => answer x = Ok tt) pre
          /\ answer x = Err e
          /\ snd (for_each xs (fun (_ : unit) (x : A) => call (ev x) (answer x)) tt t)
             = t ++ map ev (pre ++ [x])).
Proof.
  revert t. induction xs as [|x xs IH]; intros t.
  - split; [|discriminate]. intros _. split; [constructor|].
    cbn. rewrite app_nil_r. reflexivity.
  - rewrite for_each_call_cons.
    destruct (answer x) as [[]|e0] eqn:Hx.
    + destruct (IH (t ++ [ev x])) as [Hok Herr]. split.
      * intros Hfst. destruct (Hok Hfst) as [Hall Hsnd]. split.
        -- constructor; [exact Hx|exact Hall].
        -- rewrite Hsnd. cbn [map]. rewrite <- app_assoc. reflexivity.
      * intros e Hfst.
        destruct (Herr e Hfst) as (pre & y & post & -> & Hpre & Hy & Hsnd).
        exists (x :: pre), y, post. split; [reflexivity|].
        split; [constructor; [exact Hx|exact Hpre]|]. split; [exact Hy|].
        rewrite Hsnd. cbn [app map]. rewrite <- app_assoc. reflexivity.
    + split; [discriminate|]. intros e He. cbn [fst] in He.
      injection He as <-. exists [], x, xs.
      split; [reflexivity|]. split; [constructor|]. split; [exact Hx|reflexivity].
Qed.

End BatchFacts.

Section Batches.
Context {R : Runtime} {E : EmbeddingModel} {Q : QdrantClient}.

(** X1. For a batch size of at least 1, [create_embeddings] calls the model
    once per [batch_size] documents, rounded up, never on an empty batch,
    and not at all for an empty list of documents. *)
Theorem create_embeddings_call_count (documents : list (gmap string value))
    (batch_size : Z) (t : list event) :
  1 <= batch_size ->
  exists batches : list (list string),
    snd (ingestion.create_embeddings documents batch_size t)
    = t ++ map EncodeBatch batches
    /\ Z.of_nat (length batches)
       = (Z.of_nat (length documents) + batch_size - 1) / batch_size
    /\ Forall (fun batch => (1 <= length batch <= Z.to_nat batch_size)%nat) batches
    /\ (documents = [] -> batches = []).
Proof.
  intros Hbs. unfold ingestion.create_embeddings.
  set (texts := map ingestion.prepare_text_for_embedding documents).
  destruct (range_pieces texts batch_size Hbs) as (starts & Hrange & Hcount & Hlen).
  exists (map (fun i => py_slice texts i (i + batch_size)) starts).
  assert (length texts = length documents) as Htexts by apply length_map.
  split; [|split; [|split]].
  - rewrite bind_lift, Hrange, bind_run.
    rewrite (for_each_call_append starts
               (fun i => EncodeBatch (py_slice texts i (i + batch_size)))
               (fun i => model_encode_batch (py_slice texts i (i + batch_size)))).
    cbn [mret M_ret snd]. rewrite map_map. reflexivity.
  - rewrite length_map, Hcount, Htexts. reflexivity.
  - apply Forall_map. exact Hlen.
  - intros ->. cbn in Hcount.
    rewrite Z.div_small in Hcount by lia.
    destruct starts; [reflexivity|discriminate].
Qed.

(** X2. When the index accepts every batch, [upload_to_qdrant] makes one
    upsert per 100 points, rounded up, never an empty one, and none for an
    empty list. *)
Theorem upload_to_qdrant_call_count (items : list ingestion.DocWithEmbedding)
    (t : list event) :
  (forall batch, client_upsert batch = Ok tt) ->
  exists batches : list (list PointStruct),
    ingestion.upload_to_qdrant items t = (Ok tt, t ++ map Upsert batches)
    /\ Z.of_nat (length batches) = (Z.of_nat (length items) + 99) / 100
    /\ Forall (fun batch => (1 <= length batch <= 100)%nat) batches
    /\ (items = [] -> batches = []).
Proof.
  intros Hok. unfold ingestion.upload_to_qdrant. cbv zeta.
  rewrite make_points_imap. set (points := imap point_of items).
  destruct (range_pieces points 100 ltac:(lia)) as (starts & Hrange & Hcount & Hlen).
  assert (length points = length items) as Hpoints by apply length_imap.
  exists (map (fun i => py_slice points i (i + 100)) starts).
  split; [|split; [|split]].
  - rewrite bind_lift, Hrange.
    rewrite (for_each_call_unit starts
               (fun i => Upsert (py_slice points i (i + 100)))
               (fun i => client_upsert (py_slice points i (i + 100))) t
               (fun i => Hok (py_slice points i (i + 100)))).
    rewrite map_map. reflexivity.
  - rewrite length_map, Hcount, Hpoints. f_equal. lia.
  - apply Forall_map. exact Hlen.
  - intros ->. cbn in Hcount. destruct starts; [reflexivity|discriminate].
Qed.

(** X3. [upload_to_qdrant] returns normally only when every point has been
    sent and every batch accepted; it raises the exception of the first
    batch the index refuses, and sends nothing after that batch. *)
Theorem upload_to_qdrant_outcome (items : list ingestion.DocWithEmbedding)
    (t : list event) :
  (fst (ingestion.upload_to_qdrant items t) = Ok tt ->
   exists batches : list (list PointStruct),
     snd (ingestion.upload_to_qdrant items t) = t ++ map Upsert batches
     /\ concat batches = imap point_of items
     /\ Forall (fun batch => client_upsert batch = Ok tt) batches)
  /\ (forall e,
        fst (ingestion.upload_to_qdrant items t) = Err e ->
        exists (batches : list (list PointStruct)) (refused : list PointStruct) rest,
          snd (ingestion.upload_to_qdrant items t)
          = t ++ map Upsert (batches ++ [refused])
          /\ Forall (fun batch => client_upsert batch = Ok tt) batches
          /\ client_upsert refused = Err e
          /\ imap point_of items = concat (batches ++ [refused]) ++ rest).
Proof.
  unfold ingestion.upload_to_qdrant. cbv zeta.
  rewrite make_points_imap. set (points := imap point_of items).
  destruct (range_slices points 100 ltac:(lia)) as (starts & Hrange & Hcat & _).
  rewrite bind_lift, Hrange.
  destruct (for_each_call_outcome starts
              (fun i => Upsert (py_slice points i (i + 100)))
              (fun i => client_upsert (py_slice points i (i + 100))) t)
    as [Hok Herr].
  split.
  - intros Hfst. destruct (Hok Hfst) as [Hall Hsnd].
    exists (map (fun i => py_slice points i (i + 100)) starts).
    split; [rewrite map_map; exact Hsnd|]. split; [exact Hcat|].
    apply Forall_map. exact Hall.
  - intros e Hfst.
    destruct (Herr e Hfst) as (pre & i & post & Hstarts & Hpre & Hi & Hsnd).
    exists (map (fun i => py_slice points i (i + 100)) pre),
      (py_slice points i (i + 100)),
      (concat (map (fun i => py_slice points i (i + 100)) post)).
    split; [|split; [|split]].
    + rewrite Hsnd, !map_app, map_map. reflexivity.
    + apply Forall_map. exact Hpre.
    + exact Hi.
    + transitivity (concat (map (fun i => py_slice points i (i + 100)) starts));
        [symmetry; exact Hcat|].
      rewrite Hstarts, map_app, !concat_app. cbn [map concat].
      rewrite app_nil_r, <- app_assoc. reflexivity.
Qed.

End Batches.

Lemma create_embeddings_call_count_witness :
  exists batches : list (list string),
    snd (ingestion.create_embeddings (R := Fixture.runtime) (E := Fixture.model)
           (map sp_payload Fixture.ranked) 4 [])
    = [] ++ map EncodeBatch batches
    /\ Z.of_nat (length batches) = 2.
Proof.
  destruct (create_embeddings_call_count (R := Fixture.runtime) (E := Fixture.model)
              (map sp_payload Fixture.ranked) 4 [] ltac:(lia))
    as (batches & Hsnd & Hcount & _).
  exists batches. split; [exact Hsnd|]. rewrite Hcount. reflexivity.
Defined.

Lemma upload_to_qdrant_call_count_witness :
  exists batches : list (list PointStruct),
    ingestion.upload_to_qdrant (Q := Fixture.qdrant [])
      (map (embedded (R := Fixture.runtime) (E := Fixture.model))
           (map sp_payload Fixture.ranked)) []
    = (Ok tt, [] ++ map Upsert batches)
    /\ Z.of_nat (length batches) = 1.
Proof.
  destruct (upload_to_qdrant_call_count (Q := Fixture.qdrant [])
              (map (embedded (R := Fixture.runtime) (E := Fixture.model))
                   (map sp_payload Fixture.ranked)) [] (fun _ => eq_refl))
    as (batches & Hrun & Hcount & _).
  exists batches. split; [exact Hrun|]. rewrite Hcount. reflexivity.
Defined.

Lemma upload_to_qdrant_outcome_witness :
  exists (batches : list (list PointStruct)) (refused : list PointStruct) rest,
    snd (ingestion.upload_to_qdrant (Q := Fixture2.read_only [])
           (map (embedded (R := Fixture.runtime) (E := Fixture.model))
                (map sp_payload Fixture.ranked)) [])
    = [] ++ map Upsert (batches ++ [refused])
    /\ Forall (fun batch =>
                 client_upsert (QdrantClient := Fixture2.read_only []) batch = Ok tt)
              batches
    /\ client_upsert (QdrantClient := Fixture2.read_only []) refused
       = Err (UpstreamError "read-only collection")
    /\ imap point_of
         (map (embedded (R := Fixture.runtime) (E := Fixture.model))
              (map sp_payload Fixture.ranked))
       = concat (batches ++ [refused]) ++ rest.
Proof.
  destruct (upload_to_qdrant_outcome (Q := Fixture2.read_only [])
              (map (embedded (R := Fixture.runtime) (E := Fixture.model))
                   (map sp_payload Fixture.ranked)) []) as [_ Herr].
  apply Herr. vm_compute. reflexivity.
Defined.

(* ===================================================================== *)
(** * From a document to a search result *)
(* ===================================================================== *)

Section Payload.
Context {R : Runtime} {E : EmbeddingModel} {Q : QdrantClient}.

Lemma make_payload_lookup (doc : gmap string value) :
  ingestion.make_payload doc !! "id" = Some (dict_get doc "id")
  /\ ingestion.make_payload doc !! "type" = Some (dict_get doc "type")
  /\ ingestion.make_payload doc !! "source" = Some (dict_get doc "source")
  /\ ingestion.make_payload doc !! "title" = Some (dict_get doc "title")
  /\ ingestion.make_payload doc !! "content" = Some (dict_get doc "content")
  /\ ingestion.make_payload doc !! "metadata"
     = Some (dict_get_or doc "metadata" (VDict ∅)).
Proof.
  unfold ingestion.make_payload. cbn [list_to_map foldr uncurry fst snd].
  repeat split;
    repeat (first [ rewrite lookup_insert_eq; reflexivity
                  | rewrite lookup_insert_ne by discriminate ]).
Qed.

(** X4. The payload stored for a document has exactly the six keys [id],
    [type], [source], [title], [content] and [metadata]: a field the
    document lacks is stored as [None] (an empty dict for [metadata]), and
    any other field of the document is not stored. *)
Theorem make_payload_keys (doc : gmap string value) :
  dom (ingestion.make_payload doc)
  = list_to_set ["id"; "type"; "source"; "title"; "content"; "metadata"]
  /\ (forall key,
        In key ["id"; "type"; "source"; "title"; "content"] ->
        ingestion.make_payload doc !! key = Some (default VNone (doc !! key)))
  /\ ingestion.make_payload doc !! "metadata"
     = Some (default (VDict ∅) (doc !! "metadata"))
  /\ (forall key,
        ~ In key ["id"; "type"; "source"; "title"; "content"; "metadata"] ->
        ingestion.make_payload doc !! key = None).
Proof.
  destruct (make_payload_lookup doc) as (Hid & Htype & Hsource & Htitle & Hcontent & Hmeta).
  assert (dom (ingestion.make_payload doc)
          = list_to_set ["id"; "type"; "source"; "title"; "content"; "metadata"]
            :> gset string) as Hdom.
  { unfold ingestion.make_payload. rewrite dom_list_to_map_L. reflexivity. }
  split; [exact Hdom|]. split; [|split; [exact Hmeta|]].
  - intros key Hkey. cbn in Hkey.
    destruct Hkey as [<-|[<-|[<-|[<-|[<-|[]]]]]]; assumption.
  - intros key Hkey. apply not_elem_of_dom. rewrite Hdom.
    intros Hin. apply Hkey. apply elem_of_list_to_set in Hin.
    apply list_elem_of_In. exact Hin.
Qed.

(** X5. A point whose payload was made from a document comes back from the
    assistant's [search] with the fields of the document, [None] standing
    for each field the document lacks: the defaults [N/A], [Untitled] and
    the empty string are never used for such a point.  The ingestion
    module's [search] formats it only when the document has a string
    content. *)
Theorem ingested_point_as_hit (doc : gmap string value) (n : Z) (score : spec_float) :
  ArizonaPlantVectorStore.format_point
    {| sp_id := n; sp_score := score; sp_payload := ingestion.make_payload doc |}
  = {| hit_id := default VNone (doc !! "id");
       hit_score := score;
       hit_title := default VNone (doc !! "title");
       hit_content := default VNone (doc !! "content");
       hit_type := default VNone (doc !! "type");
       hit_source := default VNone (doc !! "source");
       hit_metadata := default (VDict ∅) (doc !! "metadata") |}
  /\ (is_Ok (ingestion.format_result
               {| sp_id := n; sp_score := score;
                  sp_payload := ingestion.make_payload doc |}) = true
      <-> exists s, doc !! "content" = Some (VStr s)).
Proof.
  destruct (make_payload_lookup doc) as (Hid & Htype & Hsource & Htitle & Hcontent & Hmeta).
  split.
  - unfold ArizonaPlantVectorStore.format_point, dict_get_or. cbn [sp_payload sp_score].
    rewrite Hid, Htype, Hsource, Htitle, Hcontent, Hmeta. reflexivity.
  - rewrite format_result_Ok_iff. cbn [sp_payload]. rewrite Hcontent.
    unfold dict_get. split.
    + intros [s Hs]. injection Hs as Hs.
      destruct (doc !! "content") as [v|]; [|discriminate].
      cbn in Hs. subst v. eauto.
    + intros [s ->]. eauto.
Qed.

End Payload.

Section Transport.

Lemma str_field_Ok (model : string) (v : value) (s : string) :
  app.str_field model v = Ok s -> v = VStr s.
Proof. destruct v; cbn; intros Hok; try discriminate. congruence. Qed.

Lemma SearchResult_validate_Ok (id title : value) (score : spec_float)
    (content type source : value) (r : app.SearchResult) :
  app.SearchResult_validate id title score content type source = Ok r ->
  id = VStr (app.res_id r) /\ title = VStr (app.res_title r)
  /\ content = VStr (app.res_content r) /\ type = VStr (app.res_type r)
  /\ source = VStr (app.res_source r) /\ score = app.res_score r.
Proof.
  unfold app.SearchResult_validate. intros Hok.
  destruct (app.str_field "SearchResult" id) as [id'|] eqn:Hid; [|discriminate].
  destruct (app.str_field "SearchResult" title) as [title'|] eqn:Htitle; [|discriminate].
  destruct (app.str_field "SearchResult" content) as [content'|] eqn:Hcontent;
    [|discriminate].
  destruct (app.str_field "SearchResult" type) as [type'|] eqn:Htype; [|discriminate].
  destruct (app.str_field "SearchResult" source) as [source'|] eqn:Hsource;
    [|discriminate].
  cbn in Hok. injection Hok as <-. cbn.
  apply str_field_Ok in Hid, Htitle, Hcontent, Htype, Hsource.
  repeat split; assumption.
Qed.

(** The content as the endpoints return it. *)
Lemma transport_content_length (s : string) :
  len (if 500 <? len s then str_take 500 s +:+ "..." else s) <= 503.
Proof.
  destruct (Z.ltb_spec 500 (len s)) as [Hlong|Hshort]; unfold len in *.
  - rewrite length_append, length_str_take. cbn [String.length]. lia.
  - lia.
Qed.

(** X6. An entry of the response of [/query] and [/search] is built exactly
    when [id], [title], [content], [type] and [source] of the search result
    are all strings.  It carries them and the score unchanged, except that a
    content of more than 500 characters is cut to its first 500 followed by
    three dots, so that the content returned never exceeds 503 characters. *)
Theorem to_search_result_strings (hit : SearchHit) :
  (forall r,
     app.to_search_result hit = Ok r ->
     hit_id hit = VStr (app.res_id r)
     /\ hit_title hit = VStr (app.res_title r)
     /\ hit_type hit = VStr (app.res_type r)
     /\ hit_source hit = VStr (app.res_source r)
     /\ hit_score hit = app.res_score r
     /\ len (app.res_content r) <= 503
     /\ exists s,
          hit_content hit = VStr s
          /\ app.res_content r
             = if 500 <? len s then str_take 500 s +:+ "..." else s)
  /\ (forall id title content type source,
        hit_id hit = VStr id -> hit_title hit = VStr title ->
        hit_content hit = VStr content -> hit_type hit = VStr type ->
        hit_source hit = VStr source ->
        app.to_search_result hit
        = Ok {| app.res_id := id; app.res_title := title;
                app.res_score := hit_score hit;
                app.res_content :=
                  if 500 <? len content then str_take 500 content +:+ "..."
                  else content;
                app.res_type := type; app.res_source := source |}).
Proof.
  split.
  - intros r Hok. unfold app.to_search_result in Hok.
    destruct (hit_content hit) as [| | | |s|xs|d] eqn:Hcontent; cbn in Hok;
      try discriminate.
    + (* a string *)
      assert (exists c, app.SearchResult_validate (hit_id hit) (hit_title hit)
                          (hit_score hit) (VStr c) (hit_type hit) (hit_source hit) = Ok r
                        /\ c = if 500 <? len s then str_take 500 s +:+ "..." else s)
        as (c & Hval & Hc).
      { destruct (500 <? len s); cbn in Hok; eauto. }
      apply SearchResult_validate_Ok in Hval
        as (Hid & Htitle & Hcont & Htype & Hsource & Hscore).
      injection Hcont as Hcont.
      repeat (split; [assumption|]).
      split; [rewrite <- Hcont, Hc; apply transport_content_length|].
      exists s. split; [reflexivity|]. congruence.
    + (* a list *)
      destruct (500 <? Z.of_nat (length xs)); cbn in Hok; [discriminate|].
      apply SearchResult_validate_Ok in Hok as (_ & _ & Hcont & _). discriminate.
    + (* a dict *)
      destruct (500 <? Z.of_nat (size d)); cbn in Hok; [discriminate|].
      apply SearchResult_validate_Ok in Hok as (_ & _ & Hcont & _). discriminate.
  - intros id title content type source Hid Htitle Hcontent Htype Hsource.
    unfold app.to_search_result. rewrite Hid, Htitle, Hcontent, Htype, Hsource.
    cbn. destruct (500 <? len content); reflexivity.
Qed.

End Transport.

Lemma ingested_point_as_hit_witness :
  hit_title (ArizonaPlantVectorStore.format_point
               {| sp_id := 6; sp_score := S754_finite false 1 (-2);
                  sp_payload := ingestion.make_payload Fixture2.untitled |})
  = VNone
  /\ is_Ok (app.to_search_result
              (ArizonaPlantVectorStore.format_point
                 {| sp_id := 6; sp_score := S754_finite false 1 (-2);
                    sp_payload := ingestion.make_payload Fixture2.untitled |}))
     = false.
Proof.
  destruct (ingested_point_as_hit Fixture2.untitled 6 (S754_finite false 1 (-2)))
    as [-> _].
  split; reflexivity.
Defined.

Lemma to_search_result_strings_witness :
  app.to_search_result
    (ArizonaPlantVectorStore.format_point
       (Fixture.scored 0 7 (-3)
          (Fixture.plant "p1" "Saguaro" (str_repeat "x" (Z.to_nat 600)))))
  = Ok {| app.res_id := "p1"; app.res_title := "Saguaro";
          app.res_score := S754_finite false 7 (-3);
          app.res_content := str_repeat "x" (Z.to_nat 500) +:+ "...";
          app.res_type := "plant"; app.res_source := "Desert Museum" |}.
Proof.
  destruct (to_search_result_strings
              (ArizonaPlantVectorStore.format_point
                 (Fixture.scored 0 7 (-3)
                    (Fixture.plant "p1" "Saguaro" (str_repeat "x" (Z.to_nat 600))))))
    as [_ Hstrings].
  rewrite (Hstrings "p1" "Saguaro" (str_repeat "x" (Z.to_nat 600))
             "plant" "Desert Museum");
    vm_compute; reflexivity.
Defined.

(* ===================================================================== *)
(** * How the question-answering path fails *)
(* ===================================================================== *)

Section Answering.
Context {R : Runtime} {E : EmbeddingModel} {Q : QdrantClient} {O : OpenAIClient}.

(** What one run of [rag] does. *)
Lemma rag_run (query : string) (t : list event) :
  ArizonaPlantRAG.rag query t
  = match client_query_points (model_encode query) 5 with
    | Err e => (Err e, t ++ [EncodeOne query; QueryPoints (model_encode query) 5])
    | Ok points =>
        (chat_completions_create
           (ArizonaPlantRAG.build_prompt query
              (map ArizonaPlantVectorStore.format_point points)),
         t ++ [ EncodeOne query; QueryPoints (model_encode query) 5;
                ChatCompletion
                  (ArizonaPlantRAG.build_prompt query
                     (map ArizonaPlantVectorStore.format_point points)) ])
    end.
Proof.
  unfold ArizonaPlantRAG.rag. rewrite bind_run, assistant_search_run.
  destruct (client_query_points (model_encode query) 5) as [points|e];
    [|reflexivity].
  rewrite bind_run. unfold ArizonaPlantRAG.llm, call.
  rewrite <- app_assoc. cbn [app].
  destruct (chat_completions_create _); reflexivity.
Qed.

(** X7. [rag] always retrieves with limit 5.  When the retrieval fails, its
    exception is raised and the language model is not called; otherwise the
    model is called once, on the prompt built from the documents retrieved,
    and [rag] returns its answer or raises its exception: it never makes up
    an answer. *)
Theorem rag_outcome (query : string) (t : list event) :
  (forall e,
     client_query_points (model_encode query) 5 = Err e ->
     ArizonaPlantRAG.rag query t
     = (Err e, t ++ [EncodeOne query; QueryPoints (model_encode query) 5]))
  /\ (forall points,
        client_query_points (model_encode query) 5 = Ok points ->
        ArizonaPlantRAG.rag query t
        = (chat_completions_create
             (ArizonaPlantRAG.build_prompt query
                (map ArizonaPlantVectorStore.format_point points)),
           t ++ [ EncodeOne query; QueryPoints (model_encode query) 5;
                  ChatCompletion
                    (ArizonaPlantRAG.build_prompt query
                       (map ArizonaPlantVectorStore.format_point points)) ])).
Proof. split; intros x Hx; rewrite rag_run, Hx; reflexivity. Qed.

(** X8. [query_rag] either returns a response or raises an HTTP error with
    status 500 whose detail quotes the exception caught; no other exception
    leaves it.  That holds for its own 503 too: before startup it raises
    500, quoting the 503, and calls nothing. *)
Theorem query_rag_raises_only_500 (ready : bool) (request : app.QueryRequest)
    (t : list event) :
  ((exists response, fst (app.query_rag ready request t) = Ok response)
   \/ exists e,
        fst (app.query_rag ready request t)
        = Err (HTTPException 500 ("Error processing query: " +:+ exc_str e)))
  /\ app.query_rag false request t
     = (Err (HTTPException 500
               ("Error processing query: "
                +:+ exc_str (HTTPException 503 "RAG system not initialized"))),
        t).
Proof.
  split; [|reflexivity].
  unfold app.query_rag, try_except.
  match goal with |- context [match ?m t with _ => _ end] => destruct (m t) as [[r|e] t'] end.
  - left. eauto.
  - right. exists e. reflexivity.
Qed.

(** X9. Where [query_rag] stops when a step fails: a failed retrieval means
    no call of the language model; a failed call of the language model
    means no second retrieval; and when a retrieved document cannot be put
    in the response (a field that is not a string), the error comes after
    the answer was generated, and the answer is dropped. *)
Theorem query_rag_failures (question : string) (top_k : Z) (t : list event) :
  (forall e,
     client_query_points (model_encode question) 5 = Err e ->
     app.query_rag true {| app.req_question := question; app.req_top_k := top_k |} t
     = (Err (HTTPException 500 ("Error processing query: " +:+ exc_str e)),
        t ++ [EncodeOne question; QueryPoints (model_encode question) 5]))
  /\ (forall points e,
        client_query_points (model_encode question) 5 = Ok points ->
        chat_completions_create
          (ArizonaPlantRAG.build_prompt question
             (map ArizonaPlantVectorStore.format_point points)) = Err e ->
        app.query_rag true {| app.req_question := question; app.req_top_k := top_k |} t
        = (Err (HTTPException 500 ("Error processing query: " +:+ exc_str e)),
           t ++ [ EncodeOne question; QueryPoints (model_encode question) 5;
                  ChatCompletion
                    (ArizonaPlantRAG.build_prompt question
                       (map ArizonaPlantVectorStore.format_point points)) ]))
  /\ (forall points answer returned e,
        client_query_points (model_encode question) 5 = Ok points ->
        chat_completions_create
          (ArizonaPlantRAG.build_prompt question
             (map ArizonaPlantVectorStore.format_point points)) = Ok answer ->
        client_query_points (model_encode question) top_k = Ok returned ->
        rmap app.to_search_result
             (map ArizonaPlantVectorStore.format_point returned) = Err e ->
        app.query_rag true {| app.req_question := question; app.req_top_k := top_k |} t
        = (Err (HTTPException 500 ("Error processing query: " +:+ exc_str e)),
           t ++ [ EncodeOne question; QueryPoints (model_encode question) 5;
                  ChatCompletion
                    (ArizonaPlantRAG.build_prompt question
                       (map ArizonaPlantVectorStore.format_point points));
                  EncodeOne question; QueryPoints (model_encode question) top_k ])).
Proof.
  repeat apply conj.
  - intros e Hq. unfold app.query_rag, try_except.
    cbn [negb app.req_question app.req_top_k].
    rewrite bind_run. cbn [mret M_ret]. rewrite bind_run, rag_run, Hq. reflexivity.
  - intros points e Hq Hllm. unfold app.query_rag, try_except.
    cbn [negb app.req_question app.req_top_k].
    rewrite bind_run. cbn [mret M_ret]. rewrite bind_run, rag_run, Hq, Hllm.
    reflexivity.
  - intros points answer returned e Hq Hllm Hk Hdocs.
    unfold app.query_rag, try_except.
    cbn [negb app.req_question app.req_top_k].
    rewrite bind_run. cbn [mret M_ret]. rewrite bind_run, rag_run, Hq, Hllm.
    rewrite bind_run, assistant_search_run, Hk, bind_lift, Hdocs.
    unfold raise. rewrite <- !app_assoc. reflexivity.
Qed.

(** X10. With no search result the prompt is still complete: introduction,
    an empty context, the question line with the query, the instructions. *)
Theorem build_prompt_no_results (query : string) :
  ArizonaPlantRAG.build_prompt query []
  = ArizonaPlantRAG.prompt_intro +:+ ArizonaPlantRAG.prompt_question
    +:+ query +:+ ArizonaPlantRAG.prompt_instructions
  /\ ArizonaPlantRAG.context_parts [] = [].
Proof. split; [|reflexivity]. rewrite build_prompt_unstripped. reflexivity. Qed.

End Answering.

Section Searching.
Context {R : Runtime} {E : EmbeddingModel} {Q : QdrantClient}.

Lemma length_rmap {A B : Type} (f : A -> result B) (xs : list A) (ys : list B) :
  rmap f xs = Ok ys -> length ys = length xs.
Proof.
  intros Hok. apply rmap_Ok_Forall2 in Hok.
  symmetry. eapply Forall2_length. exact Hok.
Qed.

(** What one run of [search_documents] does. *)
Lemma search_documents_run (question : string) (top_k : Z) (t : list event) :
  app_endpoints.search_documents true
    {| app.req_question := question; app.req_top_k := top_k |} t
  = (match client_query_points (model_encode question) top_k with
     | Err e => Err (HTTPException 500 ("Error searching documents: " +:+ exc_str e))
     | Ok points =>
         match rmap app.to_search_result
                    (map ArizonaPlantVectorStore.format_point points) with
         | Err e =>
             Err (HTTPException 500 ("Error searching documents: " +:+ exc_str e))
         | Ok documents =>
             Ok {| app_endpoints.sr_query := question;
                   app_endpoints.sr_results := documents;
                   app_endpoints.sr_count := Z.of_nat (length documents) |}
         end
     end,
     t ++ [EncodeOne question; QueryPoints (model_encode question) top_k]).
Proof.
  unfold app_endpoints.search_documents, try_except.
  cbn [negb app.req_question app.req_top_k].
  rewrite bind_run. cbn [mret M_ret].
  rewrite bind_run, assistant_search_run.
  destruct (client_query_points (model_encode question) top_k) as [points|e];
    [|reflexivity].
  rewrite bind_lift.
  destruct (rmap app.to_search_result _) as [documents|e]; reflexivity.
Qed.

(** X11. [search_documents] never calls the language model: its only calls
    are the embedding of the question and one index query with the
    requested [top_k].  When the index answers and every match can be put in
    the response, the response has one entry per match and [count] is the
    number of matches; every failure, its own 503 included, leaves as an
    HTTP error with status 500. *)
Theorem search_documents_outcome (ready : bool) (question : string) (top_k : Z)
    (t : list event) :
  snd (app_endpoints.search_documents ready
         {| app.req_question := question; app.req_top_k := top_k |} t)
  = t ++ (if ready
          then [EncodeOne question; QueryPoints (model_encode question) top_k]
          else [])
  /\ (forall points documents,
        client_query_points (model_encode question) top_k = Ok points ->
        rmap app.to_search_result
             (map ArizonaPlantVectorStore.format_point points) = Ok documents ->
        fst (app_endpoints.search_documents true
               {| app.req_question := question; app.req_top_k := top_k |} t)
        = Ok {| app_endpoints.sr_query := question;
                app_endpoints.sr_results := documents;
                app_endpoints.sr_count := Z.of_nat (length points) |}
        /\ length documents = length points)
  /\ ((exists response,
         fst (app_endpoints.search_documents ready
                {| app.req_question := question; app.req_top_k := top_k |} t)
         = Ok response)
      \/ exists e,
           fst (app_endpoints.search_documents ready
                  {| app.req_question := question; app.req_top_k := top_k |} t)
           = Err (HTTPException 500 ("Error searching documents: " +:+ exc_str e))).
Proof.
  split; [|split].
  - destruct ready; [rewrite search_documents_run; reflexivity|].
    cbn. rewrite app_nil_r. reflexivity.
  - intros points documents Hp Hd. rewrite search_documents_run, Hp, Hd.
    apply length_rmap in Hd. rewrite length_map in Hd.
    rewrite Hd. split; reflexivity.
  - destruct ready; [|right; eexists; reflexivity].
    rewrite search_documents_run. cbn [fst].
    destruct (client_query_points (model_encode question) top_k) as [points|e];
      [|eauto].
    destruct (rmap app.to_search_result _) as [documents|e]; eauto.
Qed.

End Searching.

Section Health.
Context {C : CollectionAdmin}.

(** X12. [health_check] never raises: it answers [healthy], with the number
    of points the index reports, exactly when the index gives the
    collection, and [unhealthy] with no count otherwise. *)
Theorem health_check_never_raises :
  exists response,
    app_endpoints.health_check = Ok response
    /\ (app_endpoints.hr_status response = "healthy"
        \/ app_endpoints.hr_status response = "unhealthy")
    /\ (app_endpoints.hr_status response = "healthy"
        <-> is_Ok client_get_collection = true)
    /\ (forall info,
          client_get_collection = Ok info ->
          app_endpoints.hr_document_count response = points_count info
          /\ app_endpoints.hr_qdrant_connected response = true
          /\ app_endpoints.hr_collection_exists response = true)
    /\ (forall e,
          client_get_collection = Err e ->
          app_endpoints.hr_document_count response = None
          /\ app_endpoints.hr_qdrant_connected response = false
          /\ app_endpoints.hr_collection_exists response = false).
Proof.
  unfold app_endpoints.health_check, rtry.
  destruct client_get_collection as [info|e]; cbn; eexists;
    (split; [reflexivity|]); cbn.
  - split; [left; reflexivity|]. split; [split; reflexivity|]. split.
    + intros info' [= <-]. auto.
    + intros e' [=].
  - split; [right; reflexivity|]. split; [split; discriminate|]. split.
    + intros info' [=].
    + intros e' _. auto.
Qed.

End Health.

Lemma rag_outcome_witness :
  ArizonaPlantRAG.rag (R := Fixture.runtime) (E := Fixture.model)
    (Q := Fixture2.unreachable) (O := Fixture.openai) "saguaro care" []
  = (Err (UpstreamError "connection refused"),
     [] ++ [EncodeOne "saguaro care";
            QueryPoints (model_encode (EmbeddingModel := Fixture.model)
                           "saguaro care") 5]).
Proof.
  destruct (rag_outcome (R := Fixture.runtime) (E := Fixture.model)
              (Q := Fixture2.unreachable) (O := Fixture.openai) "saguaro care" [])
    as [Hfail _].
  apply Hfail. reflexivity.
Defined.

Lemma query_rag_failures_witness :
  app.query_rag (R := Fixture.runtime) (E := Fixture.model)
    (Q := Fixture.qdrant Fixture.ranked) (O := Fixture2.no_openai) true
    {| app.req_question := "saguaro care"; app.req_top_k := 2 |} []
  = (Err (HTTPException 500 "Error processing query: rate limit"),
     [] ++ [ EncodeOne "saguaro care";
             QueryPoints (model_encode (EmbeddingModel := Fixture.model)
                            "saguaro care") 5;
             ChatCompletion
               (ArizonaPlantRAG.build_prompt (R := Fixture.runtime) "saguaro care"
                  (map ArizonaPlantVectorStore.format_point
                       (take 5 Fixture.ranked))) ]).
Proof.
  destruct (query_rag_failures (R := Fixture.runtime) (E := Fixture.model)
              (Q := Fixture.qdrant Fixture.ranked) (O := Fixture2.no_openai)
              "saguaro care" 2 []) as (_ & Hllm & _).
  apply (Hllm (take 5 Fixture.ranked) (UpstreamError "rate limit")); reflexivity.
Defined.

Lemma search_documents_outcome_witness :
  exists documents,
    fst (app_endpoints.search_documents (R := Fixture.runtime) (E := Fixture.model)
           (Q := Fixture.qdrant Fixture.ranked) true
           {| app.req_question := "saguaro care"; app.req_top_k := 3 |} [])
    = Ok {| app_endpoints.sr_query := "saguaro care";
            app_endpoints.sr_results := documents;
            app_endpoints.sr_count := Z.of_nat (length (take 3 Fixture.ranked)) |}
    /\ length documents = length (take 3 Fixture.ranked).
Proof.
  destruct (search_documents_outcome (R := Fixture.runtime) (E := Fixture.model)
              (Q := Fixture.qdrant Fixture.ranked) true "saguaro care" 3 [])
    as (_ & Hok & _).
  eexists. apply (Hok (take 3 Fixture.ranked)); [reflexivity|].
  vm_compute. reflexivity.
Defined.

(* ===================================================================== *)
(** * The ingestion run as a whole *)
(* ===================================================================== *)

Section IngestionRun.
Context {R : Runtime} {E : EmbeddingModel} {Q : QdrantClient} {F : FileSystem}
        {C : CollectionAdmin} {P : Attributes}.

Lemma run_bind_run {A B : Type} (m : Run A) (k : A -> Run B) (t : list step) :
  (m ≫= k) t
  = match m t with
    | (Ok a, t') => k a t'
    | (Err e, t') => (Err e, t')
    end.
Proof. reflexivity. Qed.

Lemma embed_run {A : Type} (m : M A) (r : result A) (evs : list event)
    (t : list step) :
  m [] = (r, evs) -> embed m t = (r, t ++ map Call evs).
Proof. intros Hm. unfold embed. rewrite Hm. reflexivity. Qed.

Lemma documents_of_dicts (docs : list (gmap string value)) :
  ingestion_run.documents_of (VList (map VDict docs)) = Ok docs.
Proof.
  unfold ingestion_run.documents_of.
  induction docs as [|doc docs IH]; [reflexivity|].
  cbn [map rmap]. rewrite IH. reflexivity.
Qed.

(** What one run of [create_collection] does. *)
Lemma create_collection_run (t : list step) :
  ingestion_run.create_collection t
  = (client_create_collection embedding_dim,
     t ++ [DeleteCollection; CreateCollection embedding_dim]).
Proof.
  unfold ingestion_run.create_collection.
  rewrite run_bind_run. unfold run_try, admin.
  destruct client_delete_collection as [[]|e]; cbn [mret Run_ret];
    rewrite <- app_assoc; reflexivity.
Qed.

(** X13. [create_collection] first asks for the deletion of the collection
    and ignores whether that fails, then asks once for its creation with
    the dimension of the embedding model; it ends as the creation ends: a
    failed deletion is never raised, a failed creation always is. *)
Theorem create_collection_always_creates (t : list step) :
  snd (ingestion_run.create_collection t)
  = t ++ [DeleteCollection; CreateCollection embedding_dim]
  /\ fst (ingestion_run.create_collection t) = client_create_collection embedding_dim
  /\ (forall e, client_delete_collection = Err e ->
                client_create_collection embedding_dim = Ok tt ->
                fst (ingestion_run.create_collection t) = Ok tt)
  /\ (forall e, client_create_collection embedding_dim = Err e ->
                fst (ingestion_run.create_collection t) = Err e).
Proof.
  rewrite create_collection_run. cbn [fst snd].
  repeat split; intros; congruence.
Qed.


(** X15. A run of [build_index] that meets no failure, over a dataset that
    is a list of dicts: the collection is dropped and created, the texts
    are embedded in batches of at most 32, in the order of the dataset, the
    points are then upserted in batches of at most 100, in the same order
    and with their positions as ids, and the collection is read once at the
    end. *)
Theorem build_index_steps (dataset_path : string) (docs : list (gmap string value))
    (info : CollectionInfo) (t : list step) :
  ingestion.load_dataset dataset_path = Ok (VList (map VDict docs)) ->
  client_create_collection embedding_dim = Ok tt ->
  (forall batch, client_upsert batch = Ok tt) ->
  client_get_collection = Ok info ->
  exists (text_batches : list (list string)) (point_batches : list (list PointStruct)),
    ingestion_run.build_index dataset_path t
    = (Ok tt,
       t ++ [DeleteCollection; CreateCollection embedding_dim]
         ++ map (fun batch => Call (EncodeBatch batch)) text_batches
         ++ map (fun batch => Call (Upsert batch)) point_batches
         ++ [GetCollection])
    /\ concat text_batches = map ingestion.prepare_text_for_embedding docs
    /\ Forall (fun batch => (length batch <= 32)%nat) text_batches
    /\ concat point_batches = imap point_of (map embedded docs)
    /\ Forall (fun batch => (length batch <= 100)%nat) point_batches.
Proof.
  intros Hload Hcreate Hupsert Hget.
  destruct (create_embeddings_run docs 32 [] ltac:(lia))
    as (text_batches & Hembed & Htexts & Htlen).
  destruct (upload_to_qdrant_run (map embedded docs) [])
    as (point_batches & Hsent & _ & Hplen & Hall).
  destruct (Hall Hupsert) as [Hdone Hpoints].
  assert (ingestion.upload_to_qdrant (map embedded docs) []
          = (Ok tt, map Upsert point_batches)) as Hupload.
  { rewrite (surjective_pairing (ingestion.upload_to_qdrant _ _)), Hdone, Hsent.
    reflexivity. }
  rewrite app_nil_l in Hembed. change (Z.to_nat 32) with 32%nat in Htlen.
  exists text_batches, point_batches.
  split; [|auto].
  unfold ingestion_run.build_index.
  rewrite run_bind_run. unfold run_lift at 1.
  rewrite Hload, run_bind_run, create_collection_run, Hcreate.
  rewrite run_bind_run. unfold run_lift. rewrite documents_of_dicts.
  rewrite run_bind_run, (embed_run _ _ _ _ Hembed).
  rewrite run_bind_run, (embed_run _ _ _ _ Hupload).
  rewrite run_bind_run. unfold admin. rewrite Hget. unfold mret, Run_ret.
  rewrite !map_map, <- !app_assoc. reflexivity.
Qed.

(** X16. [load_dataset] does not check that a [.json] file holds an array: a
    JSON string, array or object is returned as parsed, and [null], a
    boolean or a number makes it raise the TypeError of [len], not a format
    error. *)
Theorem load_dataset_top_level (dataset_path f : string) (v : value) :
  path_exists dataset_path = true ->
  path_suffix dataset_path = ".json" ->
  open_read dataset_path = Ok f ->
  json_loads f = Ok v ->
  ingestion.load_dataset dataset_path
  = match v with
    | VStr _ | VList _ | VDict _ => Ok v
    | _ => Err (TypeError ("object of type '" +:+ type_name v +:+ "' has no len()"))
    end.
Proof.
  intros Hex Hsuf Hopen Hjson. rewrite load_dataset_found by exact Hex.
  rewrite Hsuf, Hopen. cbn. rewrite Hjson. destruct v; reflexivity.
Qed.

End IngestionRun.


Lemma build_index_steps_witness :
  exists (text_batches : list (list string)) (point_batches : list (list PointStruct)),
    ingestion_run.build_index (R := Fixture.runtime) (E := Fixture.model)
      (Q := Fixture.qdrant []) (F := Fixture.files) (C := Fixture2.admin_of true)
      (P := Fixture2.attributes) "plants.jsonl" []
    = (Ok tt,
       [] ++ [DeleteCollection; CreateCollection 1]
          ++ map (fun batch => Call (EncodeBatch batch)) text_batches
          ++ map (fun batch => Call (Upsert batch)) point_batches
          ++ [GetCollection])
    /\ concat text_batches
       = map (ingestion.prepare_text_for_embedding (R := Fixture.runtime)) [∅; ∅].
Proof.
  destruct (build_index_steps (R := Fixture.runtime) (E := Fixture.model)
              (Q := Fixture.qdrant []) (F := Fixture.files)
              (C := Fixture2.admin_of true) (P := Fixture2.attributes)
              "plants.jsonl" [∅; ∅] {| points_count := Some 6; vectors_size := 1 |} []
              eq_refl eq_refl (fun _ => eq_refl) eq_refl)
    as (text_batches & point_batches & Hrun & Htexts & _).
  exists text_batches, point_batches. split; [exact Hrun|exact Htexts].
Defined.

Lemma load_dataset_top_level_witness :
  ingestion.load_dataset (F := Fixture.files) "plants.json" = Ok (VList []).
Proof.
  apply (load_dataset_top_level (F := Fixture.files) "plants.json" "[]" (VList []));
    reflexivity.
Defined.

Lemma create_embeddings_nonpositive_batch_witness :
  ingestion.create_embeddings (R := Fixture.runtime) (E := Fixture.model)
    (map sp_payload Fixture.ranked) (-4) []
  = (Ok [], []).
Proof.
  destruct (create_embeddings_nonpositive_batch (R := Fixture.runtime)
              (E := Fixture.model) (map sp_payload Fixture.ranked) (-4) [])
    as [_ Hneg].
  apply Hneg. lia.
Defined.

Section TextBounds.
Context {R : Runtime}.

(** X18. The text prepared for embedding has between 2 and 5000 characters:
    the blank line after the title is always there, so the model is never
    given an empty text; a document with neither title nor content is
    embedded as the blank line alone. *)
Theorem prepare_text_length_bounds (document : gmap string value) :
  2 <= len (ingestion.prepare_text_for_embedding document) <= 5000
  /\ (document !! "title" = None -> document !! "content" = None ->
      ingestion.prepare_text_for_embedding document = nl +:+ nl).
Proof.
  split.
  - rewrite prepare_text_take. unfold ingestion.title_and_content, len.
    rewrite length_str_take, !length_append. cbn [String.length nl]. lia.
  - intros Htitle Hcontent. rewrite prepare_text_take.
    unfold ingestion.title_and_content, dict_get_or.
    rewrite Htitle, Hcontent. reflexivity.
Qed.

End TextBounds.

Lemma prepare_text_length_bounds_witness :
  ingestion.prepare_text_for_embedding (R := Fixture.runtime) ∅ = nl +:+ nl.
Proof.
  destruct (prepare_text_length_bounds (R := Fixture.runtime) ∅) as [_ Hblank].
  apply Hblank; reflexivity.
Defined.

Lemma create_collection_always_creates_witness :
  fst (ingestion_run.create_collection (C := Fixture2.admin_of false) [])
  = Err (UpstreamError "connection refused").
Proof.
  destruct (create_collection_always_creates (C := Fixture2.admin_of false) [])
    as (_ & _ & _ & Hfail).
  apply Hfail. reflexivity.
Defined.
